(** * PDF signing interface: annotation placement engine

    A shallow embedding of the React component [PDFSigningInterface]
    (the auto-sizing variant, and, in [Module Legacy], the parts of the
    earlier variant under [src/components/PDFSigningInterface.tsx] that
    differ from it).

    Modelling conventions.
    - A JavaScript [number] is a rational ([Q]): arithmetic is exact, so
      results are compared with [==] ([Qeq]).  IEEE rounding, NaN and the
      infinities are outside the model; every division the theorems rely
      on has a positive divisor.
    - Component state ([useState] cells and the canvas ref) is one record,
      [State].  A handler is a function [State -> State] on the pending
      state; what it reads through its closure comes from the render
      snapshot [r], an explicit parameter.  A setter called with a value
      ([setTextFields (...)]) overwrites the cell with a value computed
      from [r]; a setter called with a function ([setSignatures (prev =>
      ...)]) transforms the pending state.
    - Effects are logs inside [State]: [alerts] (calls to [alert]),
      [requests] (calls to [api.get]/[api.post]) and [callbacks]
      ([onSaveDraft]/[onSubmit]).  Whatever the environment answers
      (network responses, decoded images, [confirm], [Date.now] and
      [Math.random]) is an argument of the handler that awaits it. *)

From Stdlib Require Import QArith ZArith List String Ascii Bool Lia Lqa.
From Stdlib Require Import DecimalString.
Import ListNotations.

Local Open Scope string_scope.
Local Open Scope Z_scope.
Local Open Scope Q_scope.

(** ** Numbers *)

(** [a > b] and [a < b] on JavaScript numbers. *)
Definition gtb (a b : Q) : bool := negb (Qle_bool a b).
Definition ltb (a b : Q) : bool := negb (Qle_bool b a).

(** [Math.abs] and [Math.max]. *)
Definition Math_abs (a : Q) : Q := if Qle_bool 0 a then a else - a.
Definition Math_max (a b : Q) : Q := if Qle_bool a b then b else a.

(** ** Data model *)

Module TextField.
Record t : Type := mk {
  id : string;
  page_number : Z;
  x_coordinate : Q;
  y_coordinate : Q;
  width : Q;
  height : Q;
  font_size : Q;
  text_content : string
}.

(** [Partial<TextField>]: every property may be absent. *)
Record partial : Type := mkPartial {
  p_id : option string;
  p_page_number : option Z;
  p_x_coordinate : option Q;
  p_y_coordinate : option Q;
  p_width : option Q;
  p_height : option Q;
  p_font_size : option Q;
  p_text_content : option string
}.

Definition empty : partial :=
  mkPartial None None None None None None None None.

Definition or_else {A : Type} (o : option A) (d : A) : A :=
  match o with Some a => a | None => d end.

(** [{ ...field, ...updates }]. *)
Definition spread (field : t) (updates : partial) : t :=
  mk (or_else (p_id updates) (id field))
     (or_else (p_page_number updates) (page_number field))
     (or_else (p_x_coordinate updates) (x_coordinate field))
     (or_else (p_y_coordinate updates) (y_coordinate field))
     (or_else (p_width updates) (width field))
     (or_else (p_height updates) (height field))
     (or_else (p_font_size updates) (font_size field))
     (or_else (p_text_content updates) (text_content field)).
End TextField.

Module Signature.
Record t : Type := mk {
  id : string;
  page_number : Z;
  x_coordinate : Q;
  y_coordinate : Q;
  width : Q;
  height : Q;
  signature_image_path : string;
  imageUrl : option string
}.

Record partial : Type := mkPartial {
  p_id : option string;
  p_page_number : option Z;
  p_x_coordinate : option Q;
  p_y_coordinate : option Q;
  p_width : option Q;
  p_height : option Q;
  p_signature_image_path : option string;
  p_imageUrl : option string
}.

Definition empty : partial :=
  mkPartial None None None None None None None None.

Definition or_else {A : Type} (o : option A) (d : A) : A :=
  match o with Some a => a | None => d end.

(** [{ ...sig, ...updates }]; [imageUrl] is itself optional. *)
Definition spread (sig : t) (updates : partial) : t :=
  mk (or_else (p_id updates) (id sig))
     (or_else (p_page_number updates) (page_number sig))
     (or_else (p_x_coordinate updates) (x_coordinate sig))
     (or_else (p_y_coordinate updates) (y_coordinate sig))
     (or_else (p_width updates) (width sig))
     (or_else (p_height updates) (height sig))
     (or_else (p_signature_image_path updates) (signature_image_path sig))
     (match p_imageUrl updates with Some u => Some u | None => imageUrl sig end).
End Signature.

(** [mode]: ['none' | 'text' | 'signature']. *)
Inductive Mode : Type := ModeNone | ModeText | ModeSignature.

(** The second argument of [deleteField]: ['text' | 'signature']. *)
Inductive FieldType : Type := TypeText | TypeSignature.

(** JSON values, for request bodies. *)
#[local] Unset Elimination Schemes.
Inductive JSON : Type :=
| JNum (n : Q)
| JStr (s : string)
| JArr (items : list JSON)
| JObj (props : list (string * JSON)).
#[local] Set Elimination Schemes.

(** What the user picked in the file input: [file.size], [file.type]. *)
Record File : Type := mkFile {
  file_size : Z;
  file_type : string
}.

(** The payload of [POST /signing/signature/upload]. *)
Inductive UploadPayload : Type :=
| CanvasPng (data : list Z)
| UploadedFile (file : File).

Inductive Request : Type :=
| PostDraft (documentId : Z) (body : JSON)
| PostSubmit (documentId : Z) (body : JSON)
| PostSignatureUpload (payload : UploadPayload)
| GetSignatureImage (filename : string).

(** One constructor per [alert] call site; the text shown is quoted. *)
Inductive Alert : Type :=
| NoSignatureArtifact
    (* 'Please create or upload a signature first' *)
| FileTooLarge (size : Z)
    (* `File is too large. Maximum size is 5MB. Your file is ...MB` *)
| InvalidImageType
    (* 'Invalid file type. Please upload a PNG or JPEG image.' *)
| ImageTooLarge (w h : Z)
    (* `Image dimensions are too large. Maximum is 2000x2000px. ...` *)
| ImageLoadFailed
    (* 'Failed to load image. Please ensure it is a valid image file.' *)
| UploadFailed (serverError : option string)
    (* error.response?.data?.error || 'Failed to upload signature. ...' *)
| DraftSaved
    (* 'Draft saved successfully' *)
| DraftSaveFailed (serverError : option string)
    (* error.response?.data?.error || 'Failed to save draft' *)
| DocumentSigned
    (* 'Document signed successfully!' *)
| SubmitFailed (serverError : option string).
    (* error.response?.data?.error || 'Failed to submit signature' *)

Inductive Callback : Type := OnSaveDraft | OnSubmit.

(** ** Component state *)

Record State : Type := mkState {
  numPages : Z;
  pageNumber : Z;
  scale : Q;
  mode : Mode;
  textFields : list TextField.t;
  signatures : list Signature.t;
  activeField : option string;
  fullName : string;
  signatureImage : option string;
  pdfReady : bool;
  (* signatureCanvasRef.current: the RGBA bytes of the drawing surface,
     [None] while the canvas is not mounted *)
  canvas : option (list Z);
  alerts : list Alert;
  requests : list Request;
  callbacks : list Callback
}.

Definition initialState : State :=
  mkState 0 1 1 ModeNone [] [] None "" None false None [] [] [].

Definition setNumPages (v : Z) (s : State) : State :=
  mkState v (pageNumber s) (scale s) (mode s) (textFields s) (signatures s)
    (activeField s) (fullName s) (signatureImage s) (pdfReady s) (canvas s)
    (alerts s) (requests s) (callbacks s).

Definition setScale (v : Q) (s : State) : State :=
  mkState (numPages s) (pageNumber s) v (mode s) (textFields s) (signatures s)
    (activeField s) (fullName s) (signatureImage s) (pdfReady s) (canvas s)
    (alerts s) (requests s) (callbacks s).

Definition setMode (v : Mode) (s : State) : State :=
  mkState (numPages s) (pageNumber s) (scale s) v (textFields s) (signatures s)
    (activeField s) (fullName s) (signatureImage s) (pdfReady s) (canvas s)
    (alerts s) (requests s) (callbacks s).

Definition setTextFields (v : list TextField.t) (s : State) : State :=
  mkState (numPages s) (pageNumber s) (scale s) (mode s) v (signatures s)
    (activeField s) (fullName s) (signatureImage s) (pdfReady s) (canvas s)
    (alerts s) (requests s) (callbacks s).

Definition setSignatures (v : list Signature.t) (s : State) : State :=
  mkState (numPages s) (pageNumber s) (scale s) (mode s) (textFields s) v
    (activeField s) (fullName s) (signatureImage s) (pdfReady s) (canvas s)
    (alerts s) (requests s) (callbacks s).

Definition setActiveField (v : option string) (s : State) : State :=
  mkState (numPages s) (pageNumber s) (scale s) (mode s) (textFields s)
    (signatures s) v (fullName s) (signatureImage s) (pdfReady s) (canvas s)
    (alerts s) (requests s) (callbacks s).

Definition setFullName (v : string) (s : State) : State :=
  mkState (numPages s) (pageNumber s) (scale s) (mode s) (textFields s)
    (signatures s) (activeField s) v (signatureImage s) (pdfReady s) (canvas s)
    (alerts s) (requests s) (callbacks s).

Definition setSignatureImage (v : option string) (s : State) : State :=
  mkState (numPages s) (pageNumber s) (scale s) (mode s) (textFields s)
    (signatures s) (activeField s) (fullName s) v (pdfReady s) (canvas s)
    (alerts s) (requests s) (callbacks s).

Definition setPdfReady (v : bool) (s : State) : State :=
  mkState (numPages s) (pageNumber s) (scale s) (mode s) (textFields s)
    (signatures s) (activeField s) (fullName s) (signatureImage s) v (canvas s)
    (alerts s) (requests s) (callbacks s).

Definition setCanvas (v : option (list Z)) (s : State) : State :=
  mkState (numPages s) (pageNumber s) (scale s) (mode s) (textFields s)
    (signatures s) (activeField s) (fullName s) (signatureImage s) (pdfReady s)
    v (alerts s) (requests s) (callbacks s).

(** [alert(a)], [api.get]/[api.post], and the two props callbacks. *)
Definition alert (a : Alert) (s : State) : State :=
  mkState (numPages s) (pageNumber s) (scale s) (mode s) (textFields s)
    (signatures s) (activeField s) (fullName s) (signatureImage s) (pdfReady s)
    (canvas s) (alerts s ++ [a]) (requests s) (callbacks s).

Definition send (q : Request) (s : State) : State :=
  mkState (numPages s) (pageNumber s) (scale s) (mode s) (textFields s)
    (signatures s) (activeField s) (fullName s) (signatureImage s) (pdfReady s)
    (canvas s) (alerts s) (requests s ++ [q]) (callbacks s).

Definition call (c : Callback) (s : State) : State :=
  mkState (numPages s) (pageNumber s) (scale s) (mode s) (textFields s)
    (signatures s) (activeField s) (fullName s) (signatureImage s) (pdfReady s)
    (canvas s) (alerts s) (requests s) (callbacks s ++ [c]).

(** ** Coordinate transform

    The component has no named conversion functions: the JSX multiplies a
    stored coordinate by [scale] ([position], [width], [height] props) and
    every handler divides what it receives by [scale]. *)

(** [tf.x_coordinate * scale], [sig.width * scale], ... *)
Definition toViewport (p scale : Q) : Q := p * scale.

(** [(e.clientX - rect.left) / scale], [data.x / scale], [size.width / scale]. *)
Definition toDocument (v scale : Q) : Q := v / scale.

(** ** Constants of the component *)

Definition DEFAULT_TEXT_WIDTH : Q := 200.
Definition DEFAULT_TEXT_HEIGHT : Q := 30.
Definition DEFAULT_TEXT_FONT_SIZE : Q := 14.
Definition DEFAULT_SIGNATURE_WIDTH : Q := 150.
Definition DEFAULT_SIGNATURE_HEIGHT : Q := 60.
Definition MAX_SIGNATURE_WIDTH : Q := 250.
Definition MAX_SIGNATURE_HEIGHT : Q := 100.
Definition MIN_SIGNATURE_WIDTH : Q := 80.
Definition MIN_SIGNATURE_HEIGHT : Q := 30.

(** [5 * 1024 * 1024] bytes. *)
Definition MAX_FILE_SIZE : Z := 5 * 1024 * 1024.

Definition validTypes : list string :=
  ["image/png"; "image/jpeg"; "image/jpg"].

(** ** What the environment supplies *)

(** The part of a React mouse event [handlePageClick] reads: [e.clientX],
    [e.clientY] and [e.currentTarget.getBoundingClientRect()]. *)
Record MouseEvent : Type := mkMouseEvent {
  clientX : Q;
  clientY : Q;
  rect_left : Q;
  rect_top : Q
}.

(** A decoded [Image]: intrinsic pixel size. *)
Record Image : Type := mkImage {
  img_width : Z;
  img_height : Z
}.

(** The outcome of an awaited [api.post]: the response data, or a thrown
    error with [error.response?.data?.error]. *)
Inductive Response (A : Type) : Type :=
| Ok (data : A)
| Err (serverError : option string).
Arguments Ok {A} data.
Arguments Err {A} serverError.

(** Everything [addSignature] awaits or draws from the clock. *)
Record PlacementEnv : Type := mkPlacementEnv {
  (* `${Date.now()}-${Math.random()}` *)
  env_stamp : string;
  (* response.data.signature_path of the canvas upload *)
  env_upload : Response string;
  (* URL.createObjectURL(response.data) of the preview fetch, if it succeeds *)
  env_blobUrl : option string;
  (* the decoded preview, [None] when [img.onerror] fires *)
  env_image : option Image
}.

(** ** Helpers on strings and arrays *)

(** JavaScript truthiness of a [string | null]. *)
Definition truthy (s : option string) : bool :=
  match s with
  | Some s => negb (String.eqb s "")
  | None => false
  end.

(** [validTypes.includes(file.type)]. *)
Definition includes (l : list string) (s : string) : bool :=
  existsb (String.eqb s) l.

(** The text after the last [sep] in [s]: [s.split(sep).pop()]. *)
Fixpoint split_pop_from (sep : ascii) (s acc : string) : string :=
  match s with
  | EmptyString => acc
  | String c s' =>
      if Ascii.eqb c sep then split_pop_from sep s' ""
      else split_pop_from sep s' (acc ++ String c "")
  end.

Definition split_pop (sep : ascii) (s : string) : string :=
  split_pop_from sep s "".

(** [a || b] on strings. *)
Definition str_or (a b : string) : string :=
  if String.eqb a "" then b else a.

(** [data.some((pixel, index) => ...)], starting at [index]. *)
Fixpoint some_from {A : Type} (f : A -> nat -> bool) (l : list A) (index : nat)
  : bool :=
  match l with
  | [] => false
  | x :: l' => f x index || some_from f l' (S index)
  end.

(** The canvas "has content" test of [addSignature]: some alpha byte
    (every 4th value) is non-zero. *)
Definition hasContent (data : list Z) : bool :=
  some_from (fun pixel index => Nat.eqb (index mod 4) 3 && Z.ltb 0 pixel)
            data 0.

(** [ctx.clearRect(0, 0, canvas.width, canvas.height)]. *)
Definition clearRect (data : list Z) : list Z := map (fun _ => 0%Z) data.

(** ** Serialisation of the annotation model *)

Definition textFieldBody (tf : TextField.t) : JSON :=
  JObj [ ("page_number", JNum (inject_Z (TextField.page_number tf)));
         ("x_coordinate", JNum (TextField.x_coordinate tf));
         ("y_coordinate", JNum (TextField.y_coordinate tf));
         ("width", JNum (TextField.width tf));
         ("height", JNum (TextField.height tf));
         ("font_size", JNum (TextField.font_size tf));
         ("text_content", JStr (TextField.text_content tf)) ].

Definition signatureBody (sig : Signature.t) : JSON :=
  JObj [ ("page_number", JNum (inject_Z (Signature.page_number sig)));
         ("x_coordinate", JNum (Signature.x_coordinate sig));
         ("y_coordinate", JNum (Signature.y_coordinate sig));
         ("width", JNum (Signature.width sig));
         ("height", JNum (Signature.height sig));
         ("signature_image_path", JStr (Signature.signature_image_path sig)) ].

(** The object literal passed to [api.post] by [handleSaveDraft] and by
    [handleSubmit]. *)
Definition annotationsBody (tfs : list TextField.t) (sigs : list Signature.t)
  : JSON :=
  JObj [ ("textFields", JArr (map textFieldBody tfs));
         ("signatures", JArr (map signatureBody sigs)) ].

(** ** Sizing of a placed signature *)

(** The body of [img.onload] in [getImageDimensions]: four guarded
    assignments to [width] and [height], in this order. *)
Definition getImageDimensions (img : Image) : Q * Q :=
  let aspectRatio := inject_Z (img_width img) / inject_Z (img_height img) in
  let width := inject_Z (img_width img) in
  let height := inject_Z (img_height img) in
  let '(width, height) :=
    if gtb width MAX_SIGNATURE_WIDTH
    then (MAX_SIGNATURE_WIDTH, MAX_SIGNATURE_WIDTH / aspectRatio)
    else (width, height) in
  let '(width, height) :=
    if gtb height MAX_SIGNATURE_HEIGHT
    then (MAX_SIGNATURE_HEIGHT * aspectRatio, MAX_SIGNATURE_HEIGHT)
    else (width, height) in
  let '(width, height) :=
    if ltb width MIN_SIGNATURE_WIDTH
    then (MIN_SIGNATURE_WIDTH, MIN_SIGNATURE_WIDTH / aspectRatio)
    else (width, height) in
  let '(width, height) :=
    if ltb height MIN_SIGNATURE_HEIGHT
    then (MIN_SIGNATURE_HEIGHT * aspectRatio, MIN_SIGNATURE_HEIGHT)
    else (width, height) in
  (width, height).

(** ** Handlers of the component *)

Section Handlers.

(** Props. *)
Variable documentId : Z.
Variable isReadOnly : bool.

(** The render snapshot the handlers close over. *)
Variable r : State.

Definition onDocumentLoadSuccess (n : Z) (st : State) : State :=
  setPdfReady true (setNumPages n st).

(** [loadSignatureImage]: the preview fetch never throws; it yields the
    object URL, or [''] when the request fails. *)
Definition loadSignatureImage (path : string) (blobUrl : option string)
    (st : State) : string * State :=
  let filename :=
    str_or (split_pop "/" path) (str_or (split_pop "\" path) path) in
  (match blobUrl with Some u => u | None => "" end,
   send (GetSignatureImage filename) st).

Definition addTextField (stamp : string) (pageNum : Z) (x y : Q) (st : State)
  : State :=
  let newField :=
    TextField.mk ("text-" ++ stamp) pageNum x y
      DEFAULT_TEXT_WIDTH DEFAULT_TEXT_HEIGHT DEFAULT_TEXT_FONT_SIZE
      (str_or (fullName r) "") in
  setMode ModeNone
    (setActiveField (Some (TextField.id newField))
       (setTextFields (textFields r ++ [newField]) st)).

(** The tail of [addSignature], once [imagePath] is known to be truthy. *)
Definition placeSignature (env : PlacementEnv) (pageNum : Z) (x y : Q)
    (imagePath : string) (st : State) : State :=
  let '(imageUrl, st) := loadSignatureImage imagePath (env_blobUrl env) st in
  let '(signatureWidth, signatureHeight) :=
    match env_image env with
    | Some img => getImageDimensions img
    | None => (DEFAULT_SIGNATURE_WIDTH, DEFAULT_SIGNATURE_HEIGHT)
    end in
  let newSignature :=
    Signature.mk ("sig-" ++ env_stamp env) pageNum x y
      signatureWidth signatureHeight imagePath (Some imageUrl) in
  let st := setSignatures (signatures st ++ [newSignature]) st in
  let st := setMode ModeNone st in
  let st := setActiveField (Some (Signature.id newSignature)) st in
  match canvas st with
  | Some data => setCanvas (Some (clearRect data)) st
  | None => st
  end.

(** [addSignature] from [if (!imagePath)] on. *)
Definition finishSignature (env : PlacementEnv) (pageNum : Z) (x y : Q)
    (imagePath : option string) (st : State) : State :=
  match imagePath with
  | Some p =>
      if String.eqb p "" then alert NoSignatureArtifact st
      else placeSignature env pageNum x y p st
  | None => alert NoSignatureArtifact st
  end.

Definition addSignature (env : PlacementEnv) (pageNum : Z) (x y : Q)
    (st : State) : State :=
  let imagePath := signatureImage r in
  match canvas st with
  | Some data =>
      if negb (truthy imagePath) && hasContent data then
        let st := send (PostSignatureUpload (CanvasPng data)) st in
        match env_upload env with
        | Ok path => finishSignature env pageNum x y (Some path) st
        | Err _ => st
        end
      else finishSignature env pageNum x y imagePath st
  | None => finishSignature env pageNum x y imagePath st
  end.

Definition handlePageClick (e : MouseEvent) (pageNum : Z) (env : PlacementEnv)
    (st : State) : State :=
  if isReadOnly || match mode r with ModeNone => true | _ => false end
     || negb (pdfReady r)
  then st
  else
    let x := toDocument (clientX e - rect_left e) (scale r) in
    let y := toDocument (clientY e - rect_top e) (scale r) in
    match mode r with
    | ModeText => addTextField (env_stamp env) pageNum x y st
    | ModeSignature => addSignature env pageNum x y st
    | ModeNone => st
    end.

Definition updateTextField (id : string) (updates : TextField.partial)
    (st : State) : State :=
  setTextFields
    (map (fun field =>
            if String.eqb (TextField.id field) id
            then TextField.spread field updates else field)
         (textFields r))
    st.

Definition updateSignature (id : string) (updates : Signature.partial)
    (st : State) : State :=
  setSignatures
    (map (fun sig =>
            if String.eqb (Signature.id sig) id
            then Signature.spread sig updates else sig)
         (signatures r))
    st.

Definition deleteField (id : string) (type : FieldType) (st : State) : State :=
  match type with
  | TypeText =>
      setTextFields
        (filter (fun f => negb (String.eqb (TextField.id f) id))
                (textFields r)) st
  | TypeSignature =>
      setSignatures
        (filter (fun s => negb (String.eqb (Signature.id s) id))
                (signatures r)) st
  end.

Definition handleSaveDraft (resp : Response unit) (st : State) : State :=
  let st :=
    send (PostDraft documentId
            (annotationsBody (textFields r) (signatures r))) st in
  match resp with
  | Ok _ => call OnSaveDraft (alert DraftSaved st)
  | Err e => alert (DraftSaveFailed e) st
  end.

Definition handleSubmit (confirmed : bool) (resp : Response unit) (st : State)
  : State :=
  if negb confirmed then st
  else
    let st :=
      send (PostSubmit documentId
              (annotationsBody (textFields r) (signatures r))) st in
    match resp with
    | Ok _ => call OnSubmit (alert DocumentSigned st)
    | Err e => alert (SubmitFailed e) st
    end.

Definition clearSignature (st : State) : State :=
  match canvas st with
  | None => st
  | Some data => setSignatureImage None (setCanvas (Some (clearRect data)) st)
  end.

Definition handleSignatureUpload (file : option File) (decoded : option Image)
    (upload : Response string) (blobUrl : option string) (st : State)
  : State :=
  match file with
  | None => st
  | Some file =>
      if Z.gtb (file_size file) MAX_FILE_SIZE
      then alert (FileTooLarge (file_size file)) st
      else if negb (includes validTypes (file_type file))
      then alert InvalidImageType st
      else
        match decoded with
        | None => alert ImageLoadFailed st
        | Some img =>
            if Z.gtb (img_width img) 2000 || Z.gtb (img_height img) 2000
            then alert (ImageTooLarge (img_width img) (img_height img)) st
            else
              let st := send (PostSignatureUpload (UploadedFile file)) st in
              match upload with
              | Ok imagePath =>
                  let '(_, st) := loadSignatureImage imagePath blobUrl st in
                  setSignatureImage (Some imagePath) st
              | Err e => alert (UploadFailed e) st
              end
        end
  end.

(** *** Handlers written inline in the JSX *)

(** [Draggable] of a text field: [position] and [onStop]. *)
Definition textField_position (tf : TextField.t) : Q * Q :=
  (toViewport (TextField.x_coordinate tf) (scale r),
   toViewport (TextField.y_coordinate tf) (scale r)).

Definition textField_onStop (tf : TextField.t) (data_x data_y : Q) (st : State)
  : State :=
  updateTextField (TextField.id tf)
    (TextField.mkPartial None None
       (Some (toDocument data_x (scale r))) (Some (toDocument data_y (scale r)))
       None None None None) st.

(** [Resizable] of a text field: [onResize]. *)
Definition textField_onResize (tf : TextField.t) (size_width size_height : Q)
    (st : State) : State :=
  updateTextField (TextField.id tf)
    (TextField.mkPartial None None None None
       (Some (toDocument size_width (scale r)))
       (Some (toDocument size_height (scale r))) None None) st.

(** [onChange] of the text input: two calls of [updateTextField] from the
    same closure. *)
Definition textField_onChange (tf : TextField.t) (newText : string)
    (st : State) : State :=
  let st :=
    updateTextField (TextField.id tf)
      (TextField.mkPartial None None None None None None None (Some newText))
      st in
  let newWidth :=
    Math_max DEFAULT_TEXT_WIDTH
      (inject_Z (Z.of_nat (String.length newText)) * 8) in
  updateTextField (TextField.id tf)
    (TextField.mkPartial None None None None (Some newWidth) None None None)
    st.


Definition signature_onStop (sig : Signature.t) (data_x data_y : Q)
    (st : State) : State :=
  updateSignature (Signature.id sig)
    (Signature.mkPartial None None
       (Some (toDocument data_x (scale r))) (Some (toDocument data_y (scale r)))
       None None None None) st.

(** The size a signature gets from [onResize] of its [Resizable]. *)
Definition signature_resized (sig : Signature.t) (size_width size_height : Q)
  : Q * Q :=
  let aspectRatio := Signature.width sig / Signature.height sig in
  let newWidth := toDocument size_width (scale r) in
  let newHeight := toDocument size_height (scale r) in
  let widthChange := Math_abs (newWidth - Signature.width sig) in
  let heightChange := Math_abs (newHeight - Signature.height sig) in
  if gtb widthChange heightChange
  then (newWidth, newWidth / aspectRatio)
  else (newHeight * aspectRatio, newHeight).

Definition signature_onResize (sig : Signature.t) (size_width size_height : Q)
    (st : State) : State :=
  let '(newWidth, newHeight) := signature_resized sig size_width size_height in
  updateSignature (Signature.id sig)
    (Signature.mkPartial None None None None
       (Some newWidth) (Some newHeight) None None) st.

(** The two mode buttons. *)
Definition addTextButton_onClick (st : State) : State :=
  setActiveField None
    (setMode (match mode r with ModeText => ModeNone | _ => ModeText end) st).

Definition addSignatureButton_onClick (st : State) : State :=
  setActiveField None
    (setMode (match mode r with
              | ModeSignature => ModeNone | _ => ModeSignature end) st).

End Handlers.

(** ** The rendered tree as an event dispatcher

    [step] delivers one user event to the handler the JSX attaches to the
    element concerned, closed over the current state.  An element that is
    not rendered, or is disabled, receives nothing.

    Behaviour of the two component libraries, which are not part of this
    code base.  A [Draggable] with [disabled] set calls none of its
    callbacks.  A [Resizable] reports a size clamped to [minConstraints]
    and [maxConstraints] when they are given; it has no [disabled] prop of
    its own (only [react-resizable.d.ts] of this code base declares one)
    and hands the prop on to its child, so [disabled={isReadOnly}] on a
    [Resizable] stops nothing: its resize handle still calls [onResize]
    in a read-only session. *)

Definition Math_min (a b : Q) : Q := if Qle_bool a b then a else b.

(** The constrained size a [Resizable] reports. *)
Definition Resizable_constrain (lo hi v : Q) : Q := Math_max lo (Math_min v hi).

Inductive Event : Type :=
| DocumentLoaded (n : Z)
| PageClick (e : MouseEvent) (pageNum : Z) (env : PlacementEnv)
| TextFieldDragStop (i : nat) (data_x data_y : Q)
| TextFieldResize (i : nat) (size_width size_height : Q)
| TextFieldChange (i : nat) (newText : string)
| TextFieldDelete (i : nat)
| TextFieldSelect (i : nat)
| SignatureDragStop (i : nat) (data_x data_y : Q)
| SignatureResize (i : nat) (size_width size_height : Q)
| SignatureDelete (i : nat)
| SignatureSelect (i : nat)
| AddTextButton
| AddSignatureButton
| FullNameChange (value : string)
| ClearCanvasButton
| ClearUploadedButton
| SignatureFileChosen (file : option File) (decoded : option Image)
    (upload : Response string) (blobUrl : option string)
| SaveDraftButton (resp : Response unit)
| SubmitButton (confirmed : bool) (resp : Response unit)
| ZoomOutButton
| ZoomInButton
| FitButton.

(** The page [div]s are [Array.from({ length: numPages }, (_, i) => i + 1)]. *)
Definition pageRendered (st : State) (pageNum : Z) : bool :=
  Z.leb 1 pageNum && Z.leb pageNum (numPages st).

(** [activeField === id]. *)
Definition isActive (st : State) (id : string) : bool :=
  match activeField st with
  | Some a => String.eqb a id
  | None => false
  end.

Definition step (documentId : Z) (isReadOnly : bool) (ev : Event) (st : State)
  : State :=
  match ev with
  | DocumentLoaded n => onDocumentLoadSuccess n st
  | PageClick e pageNum env =>
      if pageRendered st pageNum
      then handlePageClick isReadOnly st e pageNum env st
      else st
  | TextFieldDragStop i data_x data_y =>
      match nth_error (textFields st) i with
      | Some tf =>
          if pageRendered st (TextField.page_number tf) && negb isReadOnly
          then textField_onStop st tf data_x data_y st
          else st
      | None => st
      end
  | TextFieldResize i size_width size_height =>
      match nth_error (textFields st) i with
      | Some tf =>
          if pageRendered st (TextField.page_number tf)
          then textField_onResize st tf size_width size_height st
          else st
      | None => st
      end
  | TextFieldChange i newText =>
      match nth_error (textFields st) i with
      | Some tf =>
          if pageRendered st (TextField.page_number tf) && negb isReadOnly
          then textField_onChange st tf newText st
          else st
      | None => st
      end
  | TextFieldDelete i =>
      match nth_error (textFields st) i with
      | Some tf =>
          if pageRendered st (TextField.page_number tf)
             && (isActive st (TextField.id tf) && negb isReadOnly)
          then deleteField st (TextField.id tf) TypeText st
          else st
      | None => st
      end
  | TextFieldSelect i =>
      match nth_error (textFields st) i with
      | Some tf =>
          if pageRendered st (TextField.page_number tf)
          then setActiveField (Some (TextField.id tf)) st
          else st
      | None => st
      end
  | SignatureDragStop i data_x data_y =>
      match nth_error (signatures st) i with
      | Some sig =>
          if pageRendered st (Signature.page_number sig) && negb isReadOnly
          then signature_onStop st sig data_x data_y st
          else st
      | None => st
      end
  | SignatureResize i size_width size_height =>
      match nth_error (signatures st) i with
      | Some sig =>
          if pageRendered st (Signature.page_number sig)
          then
            signature_onResize st sig
              (Resizable_constrain (MIN_SIGNATURE_WIDTH * scale st)
                 (MAX_SIGNATURE_WIDTH * scale st) size_width)
              (Resizable_constrain (MIN_SIGNATURE_HEIGHT * scale st)
                 (MAX_SIGNATURE_HEIGHT * scale st) size_height)
              st
          else st
      | None => st
      end
  | SignatureDelete i =>
      match nth_error (signatures st) i with
      | Some sig =>
          if pageRendered st (Signature.page_number sig)
             && (isActive st (Signature.id sig) && negb isReadOnly)
          then deleteField st (Signature.id sig) TypeSignature st
          else st
      | None => st
      end
  | SignatureSelect i =>
      match nth_error (signatures st) i with
      | Some sig =>
          if pageRendered st (Signature.page_number sig)
          then setActiveField (Some (Signature.id sig)) st
          else st
      | None => st
      end
  | AddTextButton =>
      if isReadOnly then st else addTextButton_onClick st st
  | AddSignatureButton =>
      if isReadOnly then st else addSignatureButton_onClick st st
  | FullNameChange value =>
      if isReadOnly then st else setFullName value st
  | ClearCanvasButton =>
      if isReadOnly then st else clearSignature st
  | ClearUploadedButton =>
      if isReadOnly || negb (truthy (signatureImage st)) then st
      else setSignatureImage None st
  | SignatureFileChosen file decoded upload blobUrl =>
      if isReadOnly then st
      else handleSignatureUpload file decoded upload blobUrl st
  | SaveDraftButton resp =>
      if isReadOnly then st else handleSaveDraft documentId st resp st
  | SubmitButton confirmed resp =>
      if isReadOnly then st else handleSubmit documentId st confirmed resp st
  | ZoomOutButton => setScale (Math_max 0.5 (scale st - 0.1)) st
  | ZoomInButton => setScale (Math_min 2 (scale st + 0.1)) st
  | FitButton => setScale 1 st
  end.

(** A session: events delivered one after the other. *)
Fixpoint run (documentId : Z) (isReadOnly : bool) (evs : list Event)
    (st : State) : State :=
  match evs with
  | [] => st
  | ev :: evs => run documentId isReadOnly evs (step documentId isReadOnly ev st)
  end.

(** ** The earlier variant of the component

    [src/components/PDFSigningInterface.tsx].  Its [addTextField],
    [updateTextField], [updateSignature], [deleteField], [handleSaveDraft],
    [handleSubmit], the text-field handlers and the read-only gating are
    the same text as above; what differs is defined here. *)

Module Legacy.

Section Handlers.
Variable isReadOnly : bool.
Variable r : State.

(** No auto-sizing, and a setter called with a value. *)
Definition addSignature (env : PlacementEnv) (pageNum : Z) (x y : Q)
    (st : State) : State :=
  let imagePath := signatureImage r in
  let finish (imagePath : option string) (st : State) : State :=
    match imagePath with
    | Some p =>
        if String.eqb p "" then alert NoSignatureArtifact st
        else
          let '(imageUrl, st) :=
            loadSignatureImage p (env_blobUrl env) st in
          let newSignature :=
            Signature.mk ("sig-" ++ env_stamp env) pageNum x y
              DEFAULT_SIGNATURE_WIDTH DEFAULT_SIGNATURE_HEIGHT p
              (Some imageUrl) in
          setMode ModeNone
            (setSignatures (signatures r ++ [newSignature]) st)
    | None => alert NoSignatureArtifact st
    end in
  match canvas st with
  | Some data =>
      if negb (truthy imagePath) && hasContent data then
        let st := send (PostSignatureUpload (CanvasPng data)) st in
        match env_upload env with
        | Ok path => finish (Some path) st
        | Err _ => st
        end
      else finish imagePath st
  | None => finish imagePath st
  end.

(** No [pdfReady] guard. *)
Definition handlePageClick (e : MouseEvent) (pageNum : Z) (env : PlacementEnv)
    (st : State) : State :=
  if isReadOnly || match mode r with ModeNone => true | _ => false end
  then st
  else
    let x := toDocument (clientX e - rect_left e) (scale r) in
    let y := toDocument (clientY e - rect_top e) (scale r) in
    match mode r with
    | ModeText => addTextField r (env_stamp env) pageNum x y st
    | ModeSignature => addSignature env pageNum x y st
    | ModeNone => st
    end.

(** A signature is resized freely, like a text field. *)
Definition signature_onResize (sig : Signature.t) (size_width size_height : Q)
    (st : State) : State :=
  updateSignature r (Signature.id sig)
    (Signature.mkPartial None None None None
       (Some (toDocument size_width (scale r)))
       (Some (toDocument size_height (scale r))) None None) st.

(** No validation before the upload. *)
Definition handleSignatureUpload (file : option File) (upload : Response string)
    (blobUrl : option string) (st : State) : State :=
  match file with
  | None => st
  | Some file =>
      let st := send (PostSignatureUpload (UploadedFile file)) st in
      match upload with
      | Ok imagePath =>
          let '(_, st) := loadSignatureImage imagePath blobUrl st in
          setSignatureImage (Some imagePath) st
      | Err e => alert (UploadFailed e) st
      end
  end.

End Handlers.

(** A page click as the rendered tree delivers it. *)
Definition pageClick (isReadOnly : bool) (e : MouseEvent) (pageNum : Z)
    (env : PlacementEnv) (st : State) : State :=
  if pageRendered st pageNum
  then handlePageClick isReadOnly st e pageNum env st
  else st.

End Legacy.

(** ** The remote draft store *)

(** Modelled from the spec: the server behind [POST /signing/{id}/draft] is
    not part of this code base.  A draft is "a snapshot of all TextField and
    Signature records for one document, keyed by document id", and a save
    "overwrites the remote draft". *)
Definition DraftStore : Type := Z -> option JSON.

Definition deliver (q : Request) (store : DraftStore) : DraftStore :=
  match q with
  | PostDraft documentId body =>
      fun k => if Z.eqb k documentId then Some body else store k
  | _ => store
  end.

(** The keys of a JSON object, in order. *)
Definition keys (j : JSON) : list string :=
  match j with
  | JObj props => map fst props
  | _ => []
  end.

(** ** Vocabulary of the statements *)

(** The operations read-only mode is to suppress: drag, resize and delete
    of an annotation, saving the draft, submitting. *)
Definition editsOrSubmits (ev : Event) : bool :=
  match ev with
  | TextFieldDragStop _ _ _ | TextFieldResize _ _ _ | TextFieldDelete _
  | SignatureDragStop _ _ _ | SignatureResize _ _ _ | SignatureDelete _
  | SaveDraftButton _ | SubmitButton _ _ => true
  | _ => false
  end.

(** The two resize events. *)
Definition isResize (ev : Event) : bool :=
  match ev with
  | TextFieldResize _ _ _ | SignatureResize _ _ _ => true
  | _ => false
  end.

(** [j[k]] on a JSON object. *)
Definition get (k : string) (j : JSON) : option JSON :=
  match j with
  | JObj props =>
      match find (fun p => String.eqb (fst p) k) props with
      | Some p => Some (snd p)
      | None => None
      end
  | _ => None
  end.

(** A property of a spread object: the update's value where the update
    lists the property, the old value where it does not. *)
Definition merged {A : Type} (listed : option A) (old new : A) : Prop :=
  match listed with
  | Some v => new = v
  | None => new = old
  end.

(** ** Sample data *)

Definition sampleField : TextField.t :=
  TextField.mk "text-1" 1 10 20 200 30 14 "Ada Lovelace".

Definition sampleSignature : Signature.t :=
  Signature.mk "sig-1" 1 40 50 100 100 "uploads/sig.png" (Some "blob:1").

(** A loaded two-page document at 150% zoom with one text field and one
    signature, in text placement mode. *)
Definition sampleState : State :=
  mkState 2 1 1.5 ModeText [sampleField] [sampleSignature] None "Ada Lovelace"
    None true (Some [0; 0; 0; 0; 0; 0; 0; 0]%Z) [] [] [].

(** One page at 100% zoom carrying a 100 x 100 signature (what a square
    image is auto-sized to), no placement mode. *)
Definition resizeState : State :=
  mkState 1 1 1 ModeNone [] [sampleSignature] None "" None true
    (Some [0; 0; 0; 0]%Z) [] [] [].

(** Signature mode with an uploaded artifact ready. *)
Definition uploadedState : State :=
  setSignatureImage (Some "uploads/wide.png") (setMode ModeSignature sampleState).

Definition sampleClick : MouseEvent := mkMouseEvent 30 45 0 0.

(** The preview decodes to a 1000 x 100 image. *)
Definition wideImageEnv : PlacementEnv :=
  mkPlacementEnv "1-0.5" (Err None) (Some "blob:2") (Some (mkImage 1000 100)).

(** The preview decodes to a 300 x 150 image. *)
Definition plainImageEnv : PlacementEnv :=
  mkPlacementEnv "1-0.5" (Err None) (Some "blob:3") (Some (mkImage 300 150)).

(** A 6 MB file that is not an image. *)
Definition oversizePdf : File := mkFile (6 * 1024 * 1024) "application/pdf".

(** A 40 kB PNG. *)
Definition smallPng : File := mkFile 40960 "image/png".

(** * The rest of the component and its page *)

(** ** Page navigation

    [Previous] and [Next] above the viewer.  (The [Retry] button of a page
    that failed to render, which nudges [pageNumber] by 0.1 to force a
    re-render, is not modelled.) *)

Definition setPageNumber (v : Z) (s : State) : State :=
  mkState (numPages s) v (scale s) (mode s) (textFields s) (signatures s)
    (activeField s) (fullName s) (signatureImage s) (pdfReady s) (canvas s)
    (alerts s) (requests s) (callbacks s).

(** [disabled={pageNumber <= 1}],
    [onClick={() => setPageNumber(Math.max(1, pageNumber - 1))}]. *)
Definition previousButton (st : State) : State :=
  if Z.leb (pageNumber st) 1 then st
  else setPageNumber (Z.max 1 (pageNumber st - 1)) st.

(** [disabled={pageNumber >= numPages}],
    [onClick={() => setPageNumber(Math.min(numPages, pageNumber + 1))}]. *)
Definition nextButton (st : State) : State :=
  if Z.geb (pageNumber st) (numPages st) then st
  else setPageNumber (Z.min (numPages st) (pageNumber st + 1)) st.

Inductive NavEvent : Type := PreviousButton | NextButton.

Definition navigate_page (ev : NavEvent) (st : State) : State :=
  match ev with
  | PreviousButton => previousButton st
  | NextButton => nextButton st
  end.

(** ** Loading the draft *)

(** [n.toString()] of an integer id. *)
Definition string_of_Z (z : Z) : string := NilZero.string_of_int (Z.to_int z).

(** The records of [response.data] of [GET /signing/{id}/draft]; [id] may
    be missing. *)
Record DraftTextField : Type := mkDraftTextField {
  dtf_id : option Z;
  dtf_page_number : Z;
  dtf_x_coordinate : Q;
  dtf_y_coordinate : Q;
  dtf_width : Q;
  dtf_height : Q;
  dtf_font_size : Q;
  dtf_text_content : string
}.

Record DraftSignature : Type := mkDraftSignature {
  dsig_id : option Z;
  dsig_page_number : Z;
  dsig_x_coordinate : Q;
  dsig_y_coordinate : Q;
  dsig_width : Q;
  dsig_height : Q;
  dsig_signature_image_path : string
}.

(** [data.textFields] and [data.signatures] may be absent. *)
Record DraftData : Type := mkDraftData {
  data_textFields : option (list DraftTextField);
  data_signatures : option (list DraftSignature)
}.

(** [l.map((x, index) => ...)], starting at [index]. *)
Fixpoint mapi_from {A B : Type} (f : nat -> A -> B) (l : list A) (index : nat)
  : list B :=
  match l with
  | [] => []
  | x :: l' => f index x :: mapi_from f l' (S index)
  end.

(** [{ ...tf, id: tf.id?.toString() || `text-${Date.now()}-${Math.random()}` }] *)
Definition loadedTextField (stamp : string) (tf : DraftTextField)
  : TextField.t :=
  TextField.mk
    (match dtf_id tf with
     | Some n => str_or (string_of_Z n) ("text-" ++ stamp)
     | None => "text-" ++ stamp
     end)
    (dtf_page_number tf) (dtf_x_coordinate tf) (dtf_y_coordinate tf)
    (dtf_width tf) (dtf_height tf) (dtf_font_size tf) (dtf_text_content tf).

(** [{ ...sig, id: sig.id?.toString() || `sig-...`, imageUrl }] *)
Definition loadedSignature (stamp : string) (imageUrl : string)
    (sig : DraftSignature) : Signature.t :=
  Signature.mk
    (match dsig_id sig with
     | Some n => str_or (string_of_Z n) ("sig-" ++ stamp)
     | None => "sig-" ++ stamp
     end)
    (dsig_page_number sig) (dsig_x_coordinate sig) (dsig_y_coordinate sig)
    (dsig_width sig) (dsig_height sig) (dsig_signature_image_path sig)
    (Some imageUrl).

(** The preview fetches of [Promise.all(data.signatures.map(...))]: one
    [loadSignatureImage] per signature, issued in array order. *)
Fixpoint loadPreviews (blobOf : nat -> option string) (l : list DraftSignature)
    (index : nat) (st : State) : list string * State :=
  match l with
  | [] => ([], st)
  | sig :: l' =>
      let '(imageUrl, st) :=
        loadSignatureImage (dsig_signature_image_path sig) (blobOf index) st in
      let '(urls, st) := loadPreviews blobOf l' (S index) st in
      (imageUrl :: urls, st)
  end.

(** [loadDraft].  The GET of the draft is represented by its outcome
    [resp] ([Err] when it throws, which the handler only logs to the
    console); [textStamp i] and [sigStamp i] are the clock and random
    values drawn for the [i]-th record, [blobOf i] the object URL of the
    [i]-th preview when its fetch succeeds. *)
Definition loadDraft (resp : Response DraftData)
    (textStamp sigStamp : nat -> string) (blobOf : nat -> option string)
    (st : State) : State :=
  match resp with
  | Err _ => st
  | Ok data =>
      let st :=
        match data_textFields data with
        | Some ((_ :: _) as tfs) =>
            setTextFields
              (mapi_from (fun i tf => loadedTextField (textStamp i) tf) tfs 0)
              st
        | _ => st
        end in
      match data_signatures data with
      | Some ((_ :: _) as sigs) =>
          let '(urls, st) := loadPreviews blobOf sigs 0 st in
          setSignatures
            (mapi_from
               (fun i sig => loadedSignature (sigStamp i) (nth i urls "") sig)
               sigs 0)
            st
      | _ => st
      end
  end.

(** ** The page that hosts the component: [DocumentSign] *)

Module DocumentSign.

Record Document : Type := mkDocument {
  id : Z;
  title : string;
  original_file_path : string;
  signed_file_path : option string;
  status : string;
  recipient_status : option string;
  revision_note : option string
}.

(** An entry of [GET /documents/sent-back-for-signing]. *)
Record SentBack : Type := mkSentBack {
  sb_id : Z;
  sb_revision_note : option string
}.

Inductive Get : Type :=
| GetDocument (id : Z)
| GetSentBackForSigning
| GetDownload (id : Z).

Record Page : Type := mkPage {
  document : option Document;
  loading : bool;
  pdfUrl : string;
  isReadOnly : bool;
  revisionNote : option string;
  (* alert(`Failed to load document: ...`) *)
  loadAlerts : nat;
  (* navigate(path) *)
  navigations : list string;
  gets : list Get
}.

Definition initialPage : Page := mkPage None true "" false None 0 [] [].

Definition setDocument (v : option Document) (p : Page) : Page :=
  mkPage v (loading p) (pdfUrl p) (isReadOnly p) (revisionNote p)
    (loadAlerts p) (navigations p) (gets p).

Definition setLoading (v : bool) (p : Page) : Page :=
  mkPage (document p) v (pdfUrl p) (isReadOnly p) (revisionNote p)
    (loadAlerts p) (navigations p) (gets p).

Definition setPdfUrl (v : string) (p : Page) : Page :=
  mkPage (document p) (loading p) v (isReadOnly p) (revisionNote p)
    (loadAlerts p) (navigations p) (gets p).

Definition setIsReadOnly (v : bool) (p : Page) : Page :=
  mkPage (document p) (loading p) (pdfUrl p) v (revisionNote p)
    (loadAlerts p) (navigations p) (gets p).

Definition setRevisionNote (v : option string) (p : Page) : Page :=
  mkPage (document p) (loading p) (pdfUrl p) (isReadOnly p) v
    (loadAlerts p) (navigations p) (gets p).

Definition fetch (g : Get) (p : Page) : Page :=
  mkPage (document p) (loading p) (pdfUrl p) (isReadOnly p) (revisionNote p)
    (loadAlerts p) (navigations p) (gets p ++ [g]).

(** The [catch] block of [loadDocument]: [alert(...); navigate('/')]. *)
Definition failed (p : Page) : Page :=
  mkPage (document p) (loading p) (pdfUrl p) (isReadOnly p) (revisionNote p)
    (S (loadAlerts p)) (navigations p ++ ["/"]) (gets p).

(** [a === 'signed'] on a possibly absent string. *)
Definition equals (value : string) (s : option string) : bool :=
  match s with
  | Some s => String.eqb s value
  | None => false
  end.

(** The revision-note part of [loadDocument]. *)
Definition loadRevisionNote (id : Z) (doc : Document)
    (sentBack : Response (option (list SentBack))) (p : Page) : Page :=
  if truthy (revision_note doc) then setRevisionNote (revision_note doc) p
  else if equals "sent_back_for_signing" (recipient_status doc)
          || String.eqb (status doc) "sent_back_for_signing"
  then
    let p := fetch GetSentBackForSigning p in
    match sentBack with
    | Ok documents =>
        let sentBackDocs :=
          match documents with Some l => l | None => [] end in
        match find (fun d => Z.eqb (sb_id d) id) sentBackDocs with
        | Some d =>
            if truthy (sb_revision_note d)
            then setRevisionNote (sb_revision_note d) p
            else p
        | None => p
        end
    | Err _ => p
    end
  else p.

(** [loadDocument] for the route parameter [id].  [docResp] is
    [response.data.document] of the metadata fetch, [sentBack] the
    [documents] of the sent-back list, [pdfResp] the size of the downloaded
    blob ([None] when there is no data), [url] what [URL.createObjectURL]
    returns. *)
Definition loadDocument (id : Z) (docResp : Response (option Document))
    (sentBack : Response (option (list SentBack)))
    (pdfResp : Response (option Z)) (url : string) (p : Page) : Page :=
  let p := fetch (GetDocument id) p in
  let p :=
    match docResp with
    | Err _ => failed p
    | Ok None => failed (setDocument None p)
    | Ok (Some doc) =>
        let p := setDocument (Some doc) p in
        let p :=
          if equals "signed" (recipient_status doc) || String.eqb (status doc) "signed"
          then setIsReadOnly true p else p in
        let p := loadRevisionNote id doc sentBack p in
        let p := fetch (GetDownload id) p in
        match pdfResp with
        | Err _ => failed p
        | Ok None => failed p
        | Ok (Some size) =>
            if Z.eqb size 0 then failed p else setPdfUrl url p
        end
    end in
  setLoading false p.

(** What the page renders. *)
Inductive View : Type :=
| LoadingDocument
| DocumentNotFound
| SigningInterface (documentId : Z) (pdfUrl : string) (isReadOnly : bool).

Definition render (id : Z) (p : Page) : View :=
  if loading p then LoadingDocument
  else
    match document p with
    | None => DocumentNotFound
    | Some _ =>
        if String.eqb (pdfUrl p) "" then DocumentNotFound
        else SigningInterface id (pdfUrl p) (isReadOnly p)
    end.

(** The page's [handleSubmit], passed as [onSubmit]: [navigate('/')]. *)
Definition handleSubmit (p : Page) : Page :=
  mkPage (document p) (loading p) (pdfUrl p) (isReadOnly p) (revisionNote p)
    (loadAlerts p) (navigations p ++ ["/"]) (gets p).

End DocumentSign.

(** The events of a session reach the component only while the page
    renders it, and with the props the page passes. *)
Definition hosted (view : DocumentSign.View) (evs : list Event) (st : State)
  : State :=
  match view with
  | DocumentSign.SigningInterface documentId _ isReadOnly =>
      run documentId isReadOnly evs st
  | _ => st
  end.

(** [doc.recipient_status === 'signed' || doc.status === 'signed']. *)
Definition isSigned (doc : DocumentSign.Document) : bool :=
  DocumentSign.equals "signed" (DocumentSign.recipient_status doc)
  || String.eqb (DocumentSign.status doc) "signed".

(** [doc.recipient_status === 'sent_back_for_signing' ||
    doc.status === 'sent_back_for_signing']. *)
Definition isSentBack (doc : DocumentSign.Document) : bool :=
  DocumentSign.equals "sent_back_for_signing" (DocumentSign.recipient_status doc)
  || String.eqb (DocumentSign.status doc) "sent_back_for_signing".

(** ** Vocabulary of the further statements *)

(** [c] occurs in [s]. *)
Fixpoint occurs (c : ascii) (s : string) : bool :=
  match s with
  | EmptyString => false
  | String c' s' => Ascii.eqb c' c || occurs c s'
  end.

(** The three checks of [handleSignatureUpload] taken together. *)
Definition passesValidation (file : File) (decoded : option Image) : bool :=
  Z.leb (file_size file) MAX_FILE_SIZE
  && includes validTypes (file_type file)
  && match decoded with
     | Some img => Z.leb (img_width img) 2000 && Z.leb (img_height img) 2000
     | None => false
     end.

(** A page click whose preview, if it decodes, has a positive size. *)
Definition decodesPositive (ev : Event) : bool :=
  match ev with
  | PageClick _ _ env =>
      match env_image env with
      | Some img => Z.ltb 0 (img_width img) && Z.ltb 0 (img_height img)
      | None => true
      end
  | _ => true
  end.

Definition positiveSize (sig : Signature.t) : Prop :=
  0 < Signature.width sig /\ 0 < Signature.height sig.

(** ** More sample data *)

Definition sampleDocument : DocumentSign.Document :=
  DocumentSign.mkDocument 7 "Lease" "uploads/lease.pdf" None "signed" None None.

(** A canvas with one opaque black pixel. *)
Definition drawnState : State :=
  mkState 2 1 1 ModeSignature [] [] None "" None true
    (Some [0; 0; 0; 255; 0; 0; 0; 0]%Z) [] [] [].

Definition drawnEnv : PlacementEnv :=
  mkPlacementEnv "2-0.25" (Ok "uploads/drawn.png") (Some "blob:5")
    (Some (mkImage 300 150)).

(** A document sent back for revision whose note is only on the list. *)
Definition sentBackDocument : DocumentSign.Document :=
  DocumentSign.mkDocument 7 "Lease" "uploads/lease.pdf" None "pending"
    (Some "sent_back_for_signing") None.
(** * Properties *)

(** ** Comparison of numbers *)

Lemma gtb_true (a b : Q) : gtb a b = true <-> b < a.
Proof.
  unfold gtb. rewrite negb_true_iff. split.
  - intros H. destruct (Qlt_le_dec b a) as [Hlt | Hle]; [exact Hlt |].
    apply Qle_bool_iff in Hle. congruence.
  - intros H. destruct (Qle_bool a b) eqn:E; [| reflexivity].
    apply Qle_bool_iff in E. lra.
Qed.

Lemma gtb_false (a b : Q) : gtb a b = false <-> a <= b.
Proof.
  unfold gtb. rewrite negb_false_iff. apply Qle_bool_iff.
Qed.

Lemma ltb_true (a b : Q) : ltb a b = true <-> a < b.
Proof. apply gtb_true. Qed.

Lemma ltb_false (a b : Q) : ltb a b = false <-> b <= a.
Proof. apply gtb_false. Qed.

Lemma Math_max_spec (a b : Q) :
  (a <= b /\ Math_max a b = b) \/ (b < a /\ Math_max a b = a).
Proof.
  unfold Math_max. destruct (Qle_bool a b) eqn:E.
  - left. split; [apply Qle_bool_iff; exact E | reflexivity].
  - right. split; [apply (gtb_true a b); unfold gtb; rewrite E | ]; reflexivity.
Qed.

Lemma Math_min_spec (a b : Q) :
  (a <= b /\ Math_min a b = a) \/ (b < a /\ Math_min a b = b).
Proof.
  unfold Math_min. destruct (Qle_bool a b) eqn:E.
  - left. split; [apply Qle_bool_iff; exact E | reflexivity].
  - right. split; [apply (gtb_true a b); unfold gtb; rewrite E | ]; reflexivity.
Qed.

Lemma Math_abs_spec (a : Q) :
  (0 <= a /\ Math_abs a = a) \/ (a < 0 /\ Math_abs a = - a).
Proof.
  unfold Math_abs. destruct (Qle_bool 0 a) eqn:E.
  - left. split; [apply Qle_bool_iff; exact E | reflexivity].
  - right. split; [apply (gtb_true 0 a); unfold gtb; rewrite E | ]; reflexivity.
Qed.

Lemma Resizable_constrain_bounds (lo hi v : Q) :
  lo <= hi -> lo <= Resizable_constrain lo hi v <= hi.
Proof.
  intros H. unfold Resizable_constrain.
  destruct (Math_min_spec v hi) as [[H1 ->] | [H1 ->]];
    destruct (Math_max_spec lo v) as [[H2 E2] | [H2 E2]];
    destruct (Math_max_spec lo hi) as [[H3 E3] | [H3 E3]];
    rewrite ?E2, ?E3; lra.
Qed.

(** ** Coordinate transform *)


Lemma toViewport_toDocument (v s : Q) : 0 < s -> toViewport (toDocument v s) s == v.
Proof. intros H. unfold toDocument, toViewport. field. lra. Qed.



(** ** Read-only mode *)

Lemma step_read_only_frame (documentId : Z) (ev : Event) (st : State) :
  let st' := step documentId true ev st in
  requests st' = requests st /\ alerts st' = alerts st /\
  mode st' = mode st /\ signatureImage st' = signatureImage st /\
  (isResize ev = false ->
   textFields st' = textFields st /\ signatures st' = signatures st).
Proof.
  destruct ev; cbn -[handlePageClick signature_resized];
    unfold signature_onResize;
    repeat match goal with
      | |- context [nth_error ?l ?i] => destruct (nth_error l i)
      | |- context [pageRendered ?s ?p] => destruct (pageRendered s p)
      | |- context [andb _ false] => rewrite andb_false_r
      | |- context [signature_resized ?a ?b ?c ?d] =>
          destruct (signature_resized a b c d)
      end;
    cbn; do 4 (split; [reflexivity |]); intros H; try discriminate H;
    split; reflexivity.
Qed.

Lemma run_read_only_effects (documentId : Z) (evs : list Event) (st : State) :
  requests (run documentId true evs st) = requests st /\
  alerts (run documentId true evs st) = alerts st /\
  mode (run documentId true evs st) = mode st /\
  signatureImage (run documentId true evs st) = signatureImage st.
Proof.
  revert st. induction evs as [| ev evs IH]; intros st; [cbn; auto |].
  cbn [run].
  destruct (step_read_only_frame documentId ev st) as (Hr & Ha & Hm & Hi & _).
  destruct (IH (step documentId true ev st)) as (Hr' & Ha' & Hm' & Hi').
  rewrite Hr', Ha', Hm', Hi'. auto.
Qed.

Lemma run_read_only_model (documentId : Z) (evs : list Event) (st : State) :
  forallb (fun ev => negb (isResize ev)) evs = true ->
  textFields (run documentId true evs st) = textFields st /\
  signatures (run documentId true evs st) = signatures st.
Proof.
  revert st. induction evs as [| ev evs IH]; intros st Hevs; [cbn; auto |].
  cbn [run forallb] in *. apply andb_true_iff in Hevs as [Hev Hevs].
  apply negb_true_iff in Hev.
  destruct (step_read_only_frame documentId ev st) as (_ & _ & _ & _ & H).
  destruct (H Hev) as [Ht Hs].
  destruct (IH (step documentId true ev st) Hevs) as [Ht' Hs'].
  rewrite Ht', Hs'. auto.
Qed.

(** C2.  Read-only enforcement fails for resize.  With [isReadOnly] set,
    the resize handle of an annotation still calls [onResize], whose
    handler has no guard of its own: a 100 x 100 signature whose handle is
    pulled to 200 x 100 is stored 200 x 200, and a text field pulled to
    450 x 60 at 150% zoom is stored 300 x 40.  The annotation model of a
    read-only session does change. *)
Lemma read_only_resize_changes_model :
  (exists sig',
      nth_error
        (signatures (step 7 true (SignatureResize 0 200 100) resizeState)) 0
      = Some sig' /\
      Signature.width sig' == 200 /\ Signature.height sig' == 200) /\
  signatures (step 7 true (SignatureResize 0 200 100) resizeState)
  <> signatures resizeState /\
  (exists tf',
      nth_error
        (textFields (step 7 true (TextFieldResize 0 450 60) sampleState)) 0
      = Some tf' /\
      TextField.width tf' == 300 /\ TextField.height tf' == 40) /\
  textFields (step 7 true (TextFieldResize 0 450 60) sampleState)
  <> textFields sampleState.
Proof.
  split; [| split; [| split]].
  - eexists. split; [reflexivity |]. split; reflexivity.
  - intros H. vm_compute in H. discriminate H.
  - eexists. split; [reflexivity |]. split; reflexivity.
  - intros H. vm_compute in H. discriminate H.
Qed.

(** What the read-only flag does enforce.  A drag, a delete, a draft save
    or a submit leaves the whole state as it is; no sequence of user
    events sends a request, raises an alert or changes the placement
    mode; and a sequence without resize events leaves the text fields and
    the signatures as they were. *)
Lemma read_only_blocks_all_but_resize (documentId : Z) (st : State) :
  (forall ev,
      editsOrSubmits ev = true -> isResize ev = false ->
      step documentId true ev st = st) /\
  (forall evs,
      requests (run documentId true evs st) = requests st /\
      alerts (run documentId true evs st) = alerts st /\
      mode (run documentId true evs st) = mode st) /\
  (forall evs,
      forallb (fun ev => negb (isResize ev)) evs = true ->
      textFields (run documentId true evs st) = textFields st /\
      signatures (run documentId true evs st) = signatures st).
Proof.
  split; [| split].
  - intros ev Hev Hres. destruct ev; try discriminate Hev; try discriminate Hres;
      cbn;
      repeat match goal with
        | |- context [nth_error ?l ?i] => destruct (nth_error l i)
        | |- context [andb _ false] => rewrite andb_false_r
        end;
      reflexivity.
  - intros evs.
    destruct (run_read_only_effects documentId evs st) as (Hr & Ha & Hm & _).
    auto.
  - intros evs Hevs. apply run_read_only_model, Hevs.
Qed.

(** Without the flag the same button does reach the network: the gating
    is what keeps a read-only session silent. *)
Lemma save_draft_sends_when_editable :
  requests (step 7 false (SaveDraftButton (Ok tt)) sampleState)
  = [PostDraft 7 (annotationsBody [sampleField] [sampleSignature])].
Proof. reflexivity. Qed.

(** ** Resizing a signature *)

Lemma signature_resized_ratio (st : State) (sig : Signature.t) (sw sh : Q) :
  0 < scale st -> 0 < Signature.width sig -> 0 < Signature.height sig ->
  0 < sw -> 0 < sh ->
  fst (signature_resized st sig sw sh) / snd (signature_resized st sig sw sh)
  == Signature.width sig / Signature.height sig.
Proof.
  intros Hs Hw Hh Hsw Hsh. unfold signature_resized, toDocument.
  destruct (gtb _ _); cbn [fst snd]; field; repeat split; lra.
Qed.

(** C3.  The aspect-locked resize leaves the footprint.  The handler gets
    a size the [Resizable] has constrained to [80,250] x [30,100] times the
    scale, recomputes one dimension from the aspect ratio and stores it
    without constraining it again: a 100 x 100 signature whose handle is
    pulled to 200 x 100 at scale 1 is stored 200 x 200, above the maximum
    height of 100, although 100 x 100 (the same ratio) fits the bounds. *)
Lemma signature_resize_exceeds_bounds :
  exists sig',
    nth_error
      (signatures (step 7 false (SignatureResize 0 200 100) resizeState)) 0
      = Some sig' /\
    Signature.width sig' == 200 /\ Signature.height sig' == 200 /\
    ~ Signature.height sig' <= MAX_SIGNATURE_HEIGHT.
Proof.
  eexists. split; [reflexivity |]. cbn.
  repeat split; try reflexivity. intros H. vm_compute in H. apply H. reflexivity.
Qed.

(** What the resize handler does keep, in exact arithmetic.  For a
    rendered signature of positive size and a positive scale, the stored
    size has the width/height ratio of the size before; the dimension
    whose absolute change is strictly larger (the height on a tie) is the
    reported one, which the [Resizable] has constrained to its own
    interval, and the other dimension is recomputed from the prior
    ratio. *)
Theorem signature_resize_aspect_lock
    (documentId : Z) (st : State) (i : nat) (sig : Signature.t)
    (size_width size_height : Q) :
  0 < scale st ->
  0 < Signature.width sig -> 0 < Signature.height sig ->
  nth_error (signatures st) i = Some sig ->
  pageRendered st (Signature.page_number sig) = true ->
  let ratio := Signature.width sig / Signature.height sig in
  let newWidth :=
    toDocument (Resizable_constrain (MIN_SIGNATURE_WIDTH * scale st)
                  (MAX_SIGNATURE_WIDTH * scale st) size_width) (scale st) in
  let newHeight :=
    toDocument (Resizable_constrain (MIN_SIGNATURE_HEIGHT * scale st)
                  (MAX_SIGNATURE_HEIGHT * scale st) size_height) (scale st) in
  let widthChange := Math_abs (newWidth - Signature.width sig) in
  let heightChange := Math_abs (newHeight - Signature.height sig) in
  exists sig',
    nth_error
      (signatures
         (step documentId false (SignatureResize i size_width size_height) st))
      i = Some sig' /\
    Signature.width sig' / Signature.height sig' == ratio /\
    (heightChange < widthChange ->
       Signature.width sig' = newWidth /\
       Signature.height sig' = newWidth / ratio /\
       MIN_SIGNATURE_WIDTH <= Signature.width sig' <= MAX_SIGNATURE_WIDTH) /\
    (widthChange <= heightChange ->
       Signature.height sig' = newHeight /\
       Signature.width sig' = newHeight * ratio /\
       MIN_SIGNATURE_HEIGHT <= Signature.height sig' <= MAX_SIGNATURE_HEIGHT).
Proof.
  intros Hs Hw Hh Hi Hp ratio newWidth newHeight widthChange heightChange.
  assert (Bw : MIN_SIGNATURE_WIDTH <= newWidth <= MAX_SIGNATURE_WIDTH).
  { subst newWidth. unfold toDocument.
    set (c := Resizable_constrain _ _ _).
    assert (Hc : MIN_SIGNATURE_WIDTH * scale st <= c
                 <= MAX_SIGNATURE_WIDTH * scale st).
    { apply Resizable_constrain_bounds.
      unfold MIN_SIGNATURE_WIDTH, MAX_SIGNATURE_WIDTH. nra. }
    clearbody c. unfold MIN_SIGNATURE_WIDTH, MAX_SIGNATURE_WIDTH in *.
    split.
    - apply Qle_shift_div_l; [exact Hs | lra].
    - apply Qle_shift_div_r; [exact Hs | lra]. }
  assert (Bh : MIN_SIGNATURE_HEIGHT <= newHeight <= MAX_SIGNATURE_HEIGHT).
  { subst newHeight. unfold toDocument.
    set (c := Resizable_constrain _ _ _).
    assert (Hc : MIN_SIGNATURE_HEIGHT * scale st <= c
                 <= MAX_SIGNATURE_HEIGHT * scale st).
    { apply Resizable_constrain_bounds.
      unfold MIN_SIGNATURE_HEIGHT, MAX_SIGNATURE_HEIGHT. nra. }
    clearbody c. unfold MIN_SIGNATURE_HEIGHT, MAX_SIGNATURE_HEIGHT in *.
    split.
    - apply Qle_shift_div_l; [exact Hs | lra].
    - apply Qle_shift_div_r; [exact Hs | lra]. }
  cbn [step]. rewrite Hi, Hp. cbn [andb negb].
  unfold signature_onResize, signature_resized.
  fold newWidth newHeight. fold widthChange heightChange. fold ratio.
  assert (Hr : 0 < ratio).
  { subst ratio. apply Qlt_shift_div_l; [exact Hh | lra]. }
  unfold MIN_SIGNATURE_WIDTH, MIN_SIGNATURE_HEIGHT in *.
  destruct (gtb widthChange heightChange) eqn:E.
  - apply gtb_true in E.
    unfold updateSignature. cbn [signatures setSignatures].
    rewrite (map_nth_error _ _ _ Hi), String.eqb_refl.
    eexists. split; [reflexivity |]. cbn.
    split; [| split].
    + field. split; lra.
    + intros _. auto.
    + intros H. lra.
  - apply gtb_false in E.
    unfold updateSignature. cbn [signatures setSignatures].
    rewrite (map_nth_error _ _ _ Hi), String.eqb_refl.
    eexists. split; [reflexivity |]. cbn.
    split; [| split].
    + field. lra.
    + intros H. lra.
    + intros _. auto.
Qed.

Lemma signature_resize_aspect_lock_witness :
  exists sig',
    nth_error
      (signatures (step 7 false (SignatureResize 0 200 100) resizeState)) 0
      = Some sig' /\
    Signature.width sig' / Signature.height sig' == 1.
Proof.
  destruct (signature_resize_aspect_lock 7 resizeState 0 sampleSignature 200 100)
    as (sig' & Hnth & Hratio & _); try reflexivity.
  exists sig'. split; [exact Hnth |].
  rewrite Hratio. reflexivity.
Defined.

(** The earlier variant has no aspect lock: the same gesture stores the
    reported size as it is. *)
Lemma legacy_signature_resize_is_free :
  exists sig',
    nth_error
      (signatures (Legacy.signature_onResize resizeState sampleSignature 200 100
                     resizeState)) 0
      = Some sig' /\
    Signature.width sig' == 200 /\ Signature.height sig' == 100.
Proof.
  eexists. split; [reflexivity |]. cbn. split; reflexivity.
Qed.

(** ** Placement by a page click *)

Lemma some_from_true {A : Type} (f : A -> nat -> bool) (l : list A) (k : nat) :
  some_from f l k = true <->
  exists i x, nth_error l i = Some x /\ f x (k + i)%nat = true.
Proof.
  revert k. induction l as [| a l IH]; intros k; cbn [some_from].
  - split; [discriminate |]. intros (i & x & H & _). destruct i; discriminate H.
  - rewrite orb_true_iff, IH. split.
    + intros [H | (i & x & Hi & Hf)].
      * exists 0%nat, a. rewrite Nat.add_0_r. auto.
      * exists (S i), x. rewrite Nat.add_succ_r. auto.
    + intros (i & x & Hi & Hf). destruct i as [| i].
      * left. cbn in Hi. injection Hi as ->. rewrite Nat.add_0_r in Hf. exact Hf.
      * right. exists i, x. rewrite Nat.add_succ_r in Hf. auto.
Qed.

(** The canvas has content exactly when some alpha byte is positive. *)
Lemma hasContent_true (data : list Z) :
  hasContent data = true <->
  exists k a, nth_error data (4 * k + 3) = Some a /\ (0 < a)%Z.
Proof.
  unfold hasContent. rewrite some_from_true. cbn [Nat.add]. split.
  - intros (i & x & Hi & Hf). apply andb_true_iff in Hf as [Hm Hx].
    apply Nat.eqb_eq in Hm. apply Z.ltb_lt in Hx.
    exists (i / 4)%nat, x. split; [| exact Hx].
    rewrite (Nat.div_mod_eq i 4) in Hi at 1. rewrite Hm in Hi. exact Hi.
  - intros (k & a & Hk & Ha). exists (4 * k + 3)%nat, a. split; [exact Hk |].
    apply andb_true_iff. split; [| apply Z.ltb_lt; exact Ha].
    apply Nat.eqb_eq.
    rewrite Nat.add_comm, Nat.mul_comm, Nat.Div0.mod_add. reflexivity.
Qed.

Lemma hasContent_transparent (data : list Z) :
  (forall k a, nth_error data (4 * k + 3) = Some a -> a = 0%Z) ->
  hasContent data = false.
Proof.
  intros H. destruct (hasContent data) eqn:E; [| reflexivity].
  apply hasContent_true in E as (k & a & Hk & Ha).
  apply H in Hk. lia.
Qed.

(** C4.  Signature placement without an artifact.  With no uploaded
    signature path (absent or empty) and a drawing canvas that is not
    mounted or whose alpha bytes are all zero, [addSignature] raises the
    alert [NoSignatureArtifact] and does nothing else: no signature and no
    text field is appended, the mode is what it was, and no request is
    sent.  So a page click in signature mode, on a loaded document that is
    not read-only, fails with that alert and leaves the mode at
    ['signature']. *)
Theorem signature_placement_without_artifact
    (st : State) (env : PlacementEnv) (pageNum : Z) (x y : Q) :
  truthy (signatureImage st) = false ->
  (forall data k a,
      canvas st = Some data -> nth_error data (4 * k + 3) = Some a -> a = 0%Z) ->
  let st' := addSignature st env pageNum x y st in
  st' = alert NoSignatureArtifact st /\
  alerts st' = (alerts st ++ [NoSignatureArtifact])%list /\
  signatures st' = signatures st /\
  textFields st' = textFields st /\
  mode st' = mode st /\
  requests st' = requests st /\
  (forall e,
      mode st = ModeSignature -> pdfReady st = true ->
      handlePageClick false st e pageNum env st = alert NoSignatureArtifact st /\
      mode (handlePageClick false st e pageNum env st) = ModeSignature).
Proof.
  intros Hsig Hcanvas st'.
  assert (Hfin : forall x y,
             finishSignature env pageNum x y (signatureImage st) st
             = alert NoSignatureArtifact st).
  { intros x0 y0. unfold finishSignature, truthy in *.
    destruct (signatureImage st) as [p |]; [| reflexivity].
    apply negb_false_iff in Hsig. rewrite Hsig. reflexivity. }
  assert (Hadd : forall x y,
             addSignature st env pageNum x y st = alert NoSignatureArtifact st).
  { intros x0 y0. unfold addSignature. rewrite Hsig. cbn [negb andb].
    destruct (canvas st) as [data |] eqn:Ec; [| apply Hfin].
    rewrite (hasContent_transparent data (fun k a => Hcanvas data k a eq_refl)).
    apply Hfin. }
  subst st'. rewrite Hadd.
  do 6 (split; [reflexivity |]).
  intros e Hm Hr. unfold handlePageClick. rewrite Hm, Hr. cbn [orb negb].
  rewrite Hadd. split; [reflexivity | exact Hm].
Qed.

(** A blank canvas, nothing uploaded, signature mode. *)
Lemma signature_placement_without_artifact_witness :
  mode (addSignature (setMode ModeSignature sampleState)
          (mkPlacementEnv "1-0.5" (Err None) None None) 1 30 45
          (setMode ModeSignature sampleState))
  = ModeSignature.
Proof.
  apply (signature_placement_without_artifact (setMode ModeSignature sampleState)
           (mkPlacementEnv "1-0.5" (Err None) None None) 1 30 45);
    try reflexivity.
  intros data k a Hc Hn. injection Hc as <-.
  do 2 (destruct k as [| k]; [cbn in Hn; congruence |]).
  exfalso. apply (f_equal (fun o => match o with Some _ => true | None => false end)) in Hn.
  assert (Hlen : nth_error [0; 0; 0; 0; 0; 0; 0; 0]%Z (4 * S (S k) + 3) = None)
    by (apply nth_error_None; simpl; lia).
  rewrite Hlen in Hn. discriminate Hn.
Defined.

Lemma str_or_empty (s : string) : str_or s "" = s.
Proof. unfold str_or. destruct (String.eqb_spec s ""); congruence. Qed.

(** C8.  Page-click placement of text.  A click is ignored, leaving the
    state as it is, when the session is read-only, the mode is ['none'] or
    the PDF has not finished loading.  Otherwise, in text mode, exactly one
    text field is appended: at the document-space point of the click (the
    offset of the pointer from the page's corner, divided by the scale), on
    the clicked page, 200 wide and 30 high, font size 14, holding the
    current full legal name; it becomes the active annotation, the
    signatures are untouched, the mode is ['none'] again, and so a click
    that follows at once places nothing. *)
Theorem page_click_text_placement
    (st : State) (e : MouseEvent) (pageNum : Z) (env : PlacementEnv) :
  (forall isReadOnly,
      isReadOnly = true \/ mode st = ModeNone \/ pdfReady st = false ->
      handlePageClick isReadOnly st e pageNum env st = st) /\
  (mode st = ModeText -> pdfReady st = true ->
   let st' := handlePageClick false st e pageNum env st in
   exists tf,
     textFields st' = (textFields st ++ [tf])%list /\
     TextField.id tf = ("text-" ++ env_stamp env)%string /\
     TextField.page_number tf = pageNum /\
     TextField.x_coordinate tf = (clientX e - rect_left e) / scale st /\
     TextField.y_coordinate tf = (clientY e - rect_top e) / scale st /\
     TextField.width tf = 200 /\
     TextField.height tf = 30 /\
     TextField.font_size tf = 14 /\
     TextField.text_content tf = fullName st /\
     activeField st' = Some (TextField.id tf) /\
     signatures st' = signatures st /\
     mode st' = ModeNone /\
     (forall e' pageNum' env',
         handlePageClick false st' e' pageNum' env' st' = st')).
Proof.
  split.
  - intros isReadOnly H. unfold handlePageClick.
    destruct H as [-> | [-> | ->]]; [reflexivity | |].
    + rewrite orb_true_r. reflexivity.
    + cbn [negb]. rewrite orb_true_r. reflexivity.
  - intros Hm Hr st'. subst st'. unfold handlePageClick.
    rewrite Hm, Hr. cbn [orb negb]. unfold addTextField.
    eexists. split; [reflexivity |]. cbn.
    rewrite str_or_empty. repeat split; reflexivity.
Qed.

Lemma page_click_text_placement_witness :
  mode (handlePageClick false sampleState (mkMouseEvent 30 45 0 0) 1
          (mkPlacementEnv "1-0.5" (Err None) None None) sampleState)
  = ModeNone.
Proof.
  destruct (page_click_text_placement sampleState (mkMouseEvent 30 45 0 0) 1
              (mkPlacementEnv "1-0.5" (Err None) None None)) as [_ H].
  destruct (H eq_refl eq_refl) as (tf & _ & _ & _ & _ & _ & _ & _ & _ & _ & _ & _ & Hmode & _).
  exact Hmode.
Defined.

(** The earlier variant has no [pdfReady] flag; there the page [div]s exist
    only once the page count is known, so an unloaded document offers
    nothing to click. *)
Lemma legacy_page_click_ignored
    (isReadOnly : bool) (st : State) (e : MouseEvent) (pageNum : Z)
    (env : PlacementEnv) :
  isReadOnly = true \/ mode st = ModeNone \/ numPages st = 0%Z ->
  Legacy.pageClick isReadOnly e pageNum env st = st.
Proof.
  intros H. unfold Legacy.pageClick, pageRendered, Legacy.handlePageClick.
  destruct H as [-> | [-> | ->]].
  - destruct (_ && _); reflexivity.
  - rewrite orb_true_r. destruct (_ && _); reflexivity.
  - destruct (Z.leb_spec 1 pageNum), (Z.leb_spec pageNum 0); cbn [andb];
      try reflexivity; lia.
Qed.

Lemma legacy_page_click_text
    (st : State) (e : MouseEvent) (pageNum : Z) (env : PlacementEnv) :
  mode st = ModeText ->
  Legacy.handlePageClick false st e pageNum env st
  = handlePageClick false (setPdfReady true st) e pageNum env st.
Proof.
  intros Hm. unfold Legacy.handlePageClick, handlePageClick. cbn.
  rewrite Hm. reflexivity.
Qed.

(** ** Auto-sizing of a placed signature *)

Lemma Qdiv_eq (a b c : Q) : 0 < b -> a == c * b -> a / b == c.
Proof. intros Hb H. rewrite H. field. lra. Qed.

Lemma getImageDimensions_spec (img : Image) :
  (0 < img_width img)%Z -> (0 < img_height img)%Z ->
  let W := inject_Z (img_width img) in
  let H := inject_Z (img_height img) in
  let w := fst (getImageDimensions img) in
  let h := snd (getImageDimensions img) in
  0 < h /\ w / h == W / H /\
  MIN_SIGNATURE_WIDTH <= w /\ MIN_SIGNATURE_HEIGHT <= h /\
  (4 # 5 <= W / H -> W / H <= 25 # 3 ->
   w <= MAX_SIGNATURE_WIDTH /\ h <= MAX_SIGNATURE_HEIGHT) /\
  (MIN_SIGNATURE_WIDTH <= W <= MAX_SIGNATURE_WIDTH ->
   MIN_SIGNATURE_HEIGHT <= H <= MAX_SIGNATURE_HEIGHT ->
   w = W /\ h = H).
Proof.
  intros HW HH W H w h.
  assert (Ha : 0 < W) by (subst W; unfold Qlt; simpl; lia).
  assert (Hb : 0 < H) by (subst H; unfold Qlt; simpl; lia).
  subst w h. unfold getImageDimensions. fold W H.
  clearbody W H. clear HW HH.
  unfold MAX_SIGNATURE_WIDTH, MAX_SIGNATURE_HEIGHT, MIN_SIGNATURE_WIDTH,
    MIN_SIGNATURE_HEIGHT.
  set (ar := W / H).
  assert (Har : ar * H == W) by (subst ar; field; lra).
  assert (Hpos : 0 < ar) by (subst ar; apply Qlt_shift_div_l; lra).
  set (x := 250 / ar). assert (Hx : x * ar == 250) by (subst x; field; lra).
  set (y := 80 / ar). assert (Hy : y * ar == 80) by (subst y; field; lra).
  clearbody ar x y.
  assert (Hxp : 0 < x) by nra.
  assert (Hyp : 0 < y) by nra.
  (* the four guarded assignments, in order *)
  destruct (gtb W 250) eqn:E1;
    [apply gtb_true in E1 | apply gtb_false in E1];
  match goal with |- context [gtb ?t 100] =>
    destruct (gtb t 100) eqn:E2;
    [apply gtb_true in E2 | apply gtb_false in E2] end;
  match goal with |- context [ltb ?t 80] =>
    destruct (ltb t 80) eqn:E3;
    [apply ltb_true in E3 | apply ltb_false in E3] end;
  match goal with |- context [ltb ?t 30] =>
    destruct (ltb t 30) eqn:E4;
    [apply ltb_true in E4 | apply ltb_false in E4] end;
  cbn [fst snd].
  all: try (exfalso; nra).
  all: split; [lra |].
  all: split; [apply Qdiv_eq; [lra | nra] |].
  all: repeat split; intros; try lra; try nra; try (exfalso; lra).
Qed.

Lemma app_one_not_self {A : Type} (l : list A) (x : A) : l <> (l ++ [x])%list.
Proof.
  intros H. apply (f_equal (@List.length A)) in H.
  rewrite length_app in H. cbn in H. lia.
Qed.

(** What [placeSignature] appends. *)
Lemma placeSignature_signatures
    (env : PlacementEnv) (pageNum : Z) (x y : Q) (p : string) (st : State) :
  let dims :=
    match env_image env with
    | Some img => getImageDimensions img
    | None => (DEFAULT_SIGNATURE_WIDTH, DEFAULT_SIGNATURE_HEIGHT)
    end in
  exists url,
    signatures (placeSignature env pageNum x y p st)
    = (signatures st
       ++ [Signature.mk ("sig-" ++ env_stamp env) pageNum x y
             (fst dims) (snd dims) p (Some url)])%list.
Proof.
  intros dims. unfold placeSignature, loadSignatureImage. fold dims.
  destruct dims as [w h]. cbn [fst snd].
  eexists. cbn. destruct (canvas st); reflexivity.
Qed.





(** The same placement when the preview does not decode. *)
Lemma signature_default_size :
  exists sig',
    signatures
      (addSignature uploadedState
         (mkPlacementEnv "1-0.5" (Err None) None None) 1 30 45 uploadedState)
    = [sampleSignature; sig'] /\
    Signature.width sig' == 150 /\ Signature.height sig' == 60.
Proof.
  eexists. split; [reflexivity |]. split; reflexivity.
Qed.

(** ** Uploading a signature image *)

Lemma includes_In (l : list string) (s : string) :
  includes l s = true <-> In s l.
Proof.
  unfold includes. rewrite existsb_exists. split.
  - intros (x & Hx & E). apply String.eqb_eq in E. subst x. exact Hx.
  - intros H. exists s. split; [exact H | apply String.eqb_refl].
Qed.

(** The claim as stated fails: a file that is both over the size ceiling
    and of a wrong type is rejected for its size, because the size is
    checked first. *)
Lemma oversize_pdf_reports_size :
  ~ In (file_type oversizePdf) ["image/png"; "image/jpeg"; "image/jpg"] /\
  alerts (handleSignatureUpload (Some oversizePdf) None (Err None) None
            initialState)
  = [FileTooLarge 6291456] /\
  alerts (handleSignatureUpload (Some oversizePdf) None (Err None) None
            initialState)
  <> [InvalidImageType].
Proof.
  split; [| split].
  - cbn. intros [H | [H | [H | []]]]; discriminate H.
  - reflexivity.
  - cbn. discriminate.
Qed.

(** C7 (amended).  Validation of an uploaded signature file, in the order
    of the checks.  A size above 5 MB is rejected with [FileTooLarge];
    a file within the ceiling whose MIME type is none of [image/png],
    [image/jpeg], [image/jpg] is rejected with [InvalidImageType]; a file
    passing both whose decoded width or height exceeds 2000 is rejected
    with [ImageTooLarge].  The upload never touches the annotation model,
    the mode or the selection; whenever it raises an alert the active
    signature source is what it was; and when every check passes and the
    asset store answers with a path, no alert is raised and that path is
    the active signature source. *)
Theorem signature_upload_validation
    (file : File) (decoded : option Image) (upload : Response string)
    (blobUrl : option string) (st : State) :
  let st' := handleSignatureUpload (Some file) decoded upload blobUrl st in
  (textFields st' = textFields st /\ signatures st' = signatures st /\
   mode st' = mode st /\ activeField st' = activeField st) /\
  ((file_size file > MAX_FILE_SIZE)%Z ->
   st' = alert (FileTooLarge (file_size file)) st) /\
  ((file_size file <= MAX_FILE_SIZE)%Z ->
   ~ In (file_type file) ["image/png"; "image/jpeg"; "image/jpg"] ->
   st' = alert InvalidImageType st) /\
  ((file_size file <= MAX_FILE_SIZE)%Z ->
   In (file_type file) ["image/png"; "image/jpeg"; "image/jpg"] ->
   forall img,
     decoded = Some img ->
     (img_width img > 2000 \/ img_height img > 2000)%Z ->
     st' = alert (ImageTooLarge (img_width img) (img_height img)) st) /\
  (forall a,
     alerts st' = (alerts st ++ [a])%list ->
     signatureImage st' = signatureImage st) /\
  ((file_size file <= MAX_FILE_SIZE)%Z ->
   In (file_type file) ["image/png"; "image/jpeg"; "image/jpg"] ->
   forall img path,
     decoded = Some img ->
     (img_width img <= 2000)%Z -> (img_height img <= 2000)%Z ->
     upload = Ok path ->
     alerts st' = alerts st /\ signatureImage st' = Some path).
Proof.
  intros st'. subst st'. unfold handleSignatureUpload.
  fold (includes validTypes (file_type file)).
  change ["image/png"; "image/jpeg"; "image/jpg"] with validTypes.
  unfold MAX_FILE_SIZE.
  destruct (Z.gtb_spec (file_size file) (5 * 1024 * 1024)) as [Hsz | Hsz].
  { repeat split; intros; try reflexivity; lia. }
  destruct (includes validTypes (file_type file)) eqn:Hty; cbn [negb].
  2:{ assert (Hn : ~ In (file_type file) validTypes).
      { intros H. apply includes_In in H. congruence. }
      repeat split; intros; try reflexivity; try lia; contradiction. }
  apply includes_In in Hty.
  destruct decoded as [img |].
  2:{ repeat split; intros; try reflexivity; try lia; try contradiction;
        discriminate. }
  destruct (Z.gtb_spec (img_width img) 2000) as [Hw | Hw]; cbn [orb].
  { repeat split; intros; try reflexivity; try lia; try contradiction;
      match goal with H : Some _ = Some _ |- _ => injection H as <- end;
      try reflexivity; lia. }
  destruct (Z.gtb_spec (img_height img) 2000) as [Hh | Hh].
  { repeat split; intros; try reflexivity; try lia; try contradiction;
      match goal with H : Some _ = Some _ |- _ => injection H as <- end;
      try reflexivity; lia. }
  destruct upload as [path | err].
  - repeat split; intros; try reflexivity; try lia; try contradiction.
    + match goal with H : Some _ = Some _ |- _ => injection H as <- end. lia.
    + exfalso. cbn in H. eapply app_one_not_self; eassumption.
    + match goal with H : Ok _ = Ok _ |- _ => injection H as <- end.
      reflexivity.
  - repeat split; intros; try reflexivity; try lia; try contradiction;
      try discriminate.
    match goal with H : Some _ = Some _ |- _ => injection H as <- end. lia.
Qed.

Lemma signature_upload_validation_witness :
  signatureImage
    (handleSignatureUpload (Some smallPng) (Some (mkImage 300 150))
       (Ok "uploads/a.png") (Some "blob:4") sampleState)
  = Some "uploads/a.png".
Proof.
  apply (signature_upload_validation smallPng (Some (mkImage 300 150))
           (Ok "uploads/a.png") (Some "blob:4") sampleState)
    with (img := mkImage 300 150);
    try reflexivity; try (cbn; lia); try (cbn; auto); try discriminate.
Defined.

(** ** Saving the draft *)

(** C5.  Serialisation and idempotence of [handleSaveDraft].  One save
    sends one [POST /signing/{id}/draft] whose body is an object with the
    two properties [textFields] and [signatures]; the arrays hold one record
    per text field and per signature of the current model, in order; a
    text-field record has exactly the properties [page_number],
    [x_coordinate], [y_coordinate], [width], [height], [font_size],
    [text_content], a signature record exactly [page_number],
    [x_coordinate], [y_coordinate], [width], [height],
    [signature_image_path], each with the annotation's value, and neither
    has [id] or [imageUrl].  The save leaves the model as it is, so a second
    save sends the same body, and a store that overwrites the draft with
    the body holds the same draft after the second save as after the
    first. *)
Theorem save_draft_serialization
    (documentId : Z) (st : State) (resp1 resp2 : Response unit) :
  let body := annotationsBody (textFields st) (signatures st) in
  let st1 := handleSaveDraft documentId st resp1 st in
  let st2 := handleSaveDraft documentId st1 resp2 st1 in
  requests st1 = (requests st ++ [PostDraft documentId body])%list /\
  keys body = ["textFields"; "signatures"] /\
  (exists tfs sigs,
      get "textFields" body = Some (JArr tfs) /\
      get "signatures" body = Some (JArr sigs) /\
      List.length tfs = List.length (textFields st) /\
      List.length sigs = List.length (signatures st) /\
      (forall i tf,
          nth_error (textFields st) i = Some tf ->
          exists j,
            nth_error tfs i = Some j /\
            keys j = ["page_number"; "x_coordinate"; "y_coordinate"; "width";
                      "height"; "font_size"; "text_content"] /\
            get "page_number" j
              = Some (JNum (inject_Z (TextField.page_number tf))) /\
            get "x_coordinate" j = Some (JNum (TextField.x_coordinate tf)) /\
            get "y_coordinate" j = Some (JNum (TextField.y_coordinate tf)) /\
            get "width" j = Some (JNum (TextField.width tf)) /\
            get "height" j = Some (JNum (TextField.height tf)) /\
            get "font_size" j = Some (JNum (TextField.font_size tf)) /\
            get "text_content" j = Some (JStr (TextField.text_content tf)) /\
            get "id" j = None /\ get "imageUrl" j = None) /\
      (forall i sig,
          nth_error (signatures st) i = Some sig ->
          exists j,
            nth_error sigs i = Some j /\
            keys j = ["page_number"; "x_coordinate"; "y_coordinate"; "width";
                      "height"; "signature_image_path"] /\
            get "page_number" j
              = Some (JNum (inject_Z (Signature.page_number sig))) /\
            get "x_coordinate" j = Some (JNum (Signature.x_coordinate sig)) /\
            get "y_coordinate" j = Some (JNum (Signature.y_coordinate sig)) /\
            get "width" j = Some (JNum (Signature.width sig)) /\
            get "height" j = Some (JNum (Signature.height sig)) /\
            get "signature_image_path" j
              = Some (JStr (Signature.signature_image_path sig)) /\
            get "id" j = None /\ get "imageUrl" j = None)) /\
  textFields st1 = textFields st /\ signatures st1 = signatures st /\
  requests st2
    = (requests st ++ [PostDraft documentId body; PostDraft documentId body])%list /\
  (forall store k,
      deliver (PostDraft documentId body)
        (deliver (PostDraft documentId body) store) k
      = deliver (PostDraft documentId body) store k).
Proof.
  intros body st1 st2.
  assert (Hreq : forall s resp,
             requests (handleSaveDraft documentId s resp s)
             = (requests s ++ [PostDraft documentId
                                 (annotationsBody (textFields s) (signatures s))])%list).
  { intros s [u | err]; reflexivity. }
  assert (Htf : textFields st1 = textFields st)
    by (subst st1; destruct resp1; reflexivity).
  assert (Hsg : signatures st1 = signatures st)
    by (subst st1; destruct resp1; reflexivity).
  split; [apply Hreq |].
  split; [reflexivity |].
  split.
  { exists (map textFieldBody (textFields st)), (map signatureBody (signatures st)).
    split; [reflexivity |]. split; [reflexivity |].
    split; [apply length_map |]. split; [apply length_map |].
    split.
    - intros i tf Hi. exists (textFieldBody tf).
      split; [apply map_nth_error; exact Hi |].
      repeat split; reflexivity.
    - intros i sig Hi. exists (signatureBody sig).
      split; [apply map_nth_error; exact Hi |].
      repeat split; reflexivity. }
  split; [exact Htf |]. split; [exact Hsg |].
  split.
  - subst st2. rewrite Hreq, Htf, Hsg. subst st1. rewrite Hreq.
    rewrite <- app_assoc. reflexivity.
  - intros store k. cbn. destruct (Z.eqb k documentId); reflexivity.
Qed.

Lemma save_draft_serialization_witness :
  requests (handleSaveDraft 7 sampleState (Ok tt) sampleState)
  = [PostDraft 7 (annotationsBody [sampleField] [sampleSignature])].
Proof.
  apply (save_draft_serialization 7 sampleState (Ok tt) (Ok tt)).
Defined.

(** ** Typing into a text field *)

(** C9.  Text auto-grow.  When the content of a text field changes to a
    string of length [n], the field's width becomes [max(200, n * 8)],
    whatever its width was before. *)
Theorem text_auto_grow
    (st : State) (i : nat) (tf : TextField.t) (newText : string) :
  nth_error (textFields st) i = Some tf ->
  let n := inject_Z (Z.of_nat (String.length newText)) in
  exists tf',
    nth_error (textFields (textField_onChange st tf newText st)) i = Some tf' /\
    TextField.width tf' = Math_max DEFAULT_TEXT_WIDTH (n * 8) /\
    200 <= TextField.width tf' /\ n * 8 <= TextField.width tf' /\
    (TextField.width tf' = 200 \/ TextField.width tf' = n * 8).
Proof.
  intros Hi n. unfold textField_onChange, updateTextField.
  cbn [textFields setTextFields].
  rewrite (map_nth_error _ _ _ Hi), String.eqb_refl.
  eexists. split; [reflexivity |]. cbn [TextField.width TextField.spread
    TextField.p_width TextField.or_else]. fold n.
  split; [reflexivity |]. unfold DEFAULT_TEXT_WIDTH.
  destruct (Math_max_spec 200 (n * 8)) as [[H ->] | [H ->]];
    repeat split; auto; lra.
Qed.

Lemma text_auto_grow_witness :
  exists tf',
    nth_error
      (textFields
         (textField_onChange sampleState sampleField
            "Augusta Ada King, Countess of Lovelace" sampleState)) 0
    = Some tf' /\
    TextField.width tf' == 304.
Proof.
  destruct (text_auto_grow sampleState 0 sampleField
              "Augusta Ada King, Countess of Lovelace" eq_refl)
    as (tf' & Hnth & Hw & _).
  exists tf'. split; [exact Hnth |]. rewrite Hw. reflexivity.
Defined.

(** The handler calls [updateTextField] twice from one closure; the second
    call maps over the same [textFields] as the first and its result is
    what the state keeps, so the new width is stored and the typed text is
    not. *)
Lemma text_change_keeps_content
    (st : State) (i : nat) (tf : TextField.t) (newText : string) :
  nth_error (textFields st) i = Some tf ->
  exists tf',
    nth_error (textFields (textField_onChange st tf newText st)) i = Some tf' /\
    TextField.text_content tf' = TextField.text_content tf.
Proof.
  intros Hi. unfold textField_onChange, updateTextField.
  cbn [textFields setTextFields].
  rewrite (map_nth_error _ _ _ Hi), String.eqb_refl.
  eexists. split; reflexivity.
Qed.

(** ** Updating and deleting annotations *)

Lemma map_unless_id {A : Type} (p : A -> bool) (g : A -> A) (l : list A) :
  (forall a, In a l -> p a = false) ->
  map (fun a => if p a then g a else a) l = l.
Proof.
  intros H. induction l as [| a l IH]; [reflexivity |].
  cbn [map]. rewrite (H a (or_introl eq_refl)). f_equal.
  apply IH. intros b Hb. apply H. right. exact Hb.
Qed.

Lemma eqb_false_of_neq (a b : string) : a <> b -> String.eqb a b = false.
Proof. intros H. apply String.eqb_neq. exact H. Qed.

Lemma TextField_spread_merged (f : TextField.t) (u : TextField.partial) :
  let f' := TextField.spread f u in
  merged (TextField.p_id u) (TextField.id f) (TextField.id f') /\
  merged (TextField.p_page_number u) (TextField.page_number f)
    (TextField.page_number f') /\
  merged (TextField.p_x_coordinate u) (TextField.x_coordinate f)
    (TextField.x_coordinate f') /\
  merged (TextField.p_y_coordinate u) (TextField.y_coordinate f)
    (TextField.y_coordinate f') /\
  merged (TextField.p_width u) (TextField.width f) (TextField.width f') /\
  merged (TextField.p_height u) (TextField.height f) (TextField.height f') /\
  merged (TextField.p_font_size u) (TextField.font_size f)
    (TextField.font_size f') /\
  merged (TextField.p_text_content u) (TextField.text_content f)
    (TextField.text_content f').
Proof.
  destruct u as [a b c d e g h k].
  destruct a, b, c, d, e, g, h, k; cbn; repeat split; reflexivity.
Qed.

Lemma Signature_spread_merged (s : Signature.t) (u : Signature.partial) :
  let s' := Signature.spread s u in
  merged (Signature.p_id u) (Signature.id s) (Signature.id s') /\
  merged (Signature.p_page_number u) (Signature.page_number s)
    (Signature.page_number s') /\
  merged (Signature.p_x_coordinate u) (Signature.x_coordinate s)
    (Signature.x_coordinate s') /\
  merged (Signature.p_y_coordinate u) (Signature.y_coordinate s)
    (Signature.y_coordinate s') /\
  merged (Signature.p_width u) (Signature.width s) (Signature.width s') /\
  merged (Signature.p_height u) (Signature.height s) (Signature.height s') /\
  merged (Signature.p_signature_image_path u) (Signature.signature_image_path s)
    (Signature.signature_image_path s') /\
  merged (option_map Some (Signature.p_imageUrl u)) (Signature.imageUrl s)
    (Signature.imageUrl s').
Proof.
  destruct u as [a b c d e g h k].
  destruct a, b, c, d, e, g, h, k; cbn; repeat split; reflexivity.
Qed.

(** C10.  Frame property of update and delete.  [updateTextField] and
    [updateSignature] keep the length and the order of their collection,
    leave every annotation with another id as it is, change in an
    annotation with the given id only the properties the update lists,
    never touch the other collection, and change nothing at all when no
    annotation of their collection has the id.  [deleteField] keeps, in
    order, exactly the annotations of its collection whose id differs from
    the given one and never touches the other collection. *)
Theorem update_delete_frame (st : State) (id : string) :
  (forall updates,
      let st' := updateTextField st id updates st in
      signatures st' = signatures st /\
      List.length (textFields st') = List.length (textFields st) /\
      (forall i f,
          nth_error (textFields st) i = Some f ->
          (TextField.id f <> id -> nth_error (textFields st') i = Some f) /\
          (TextField.id f = id ->
           nth_error (textFields st') i = Some (TextField.spread f updates))) /\
      ((forall f, In f (textFields st) -> TextField.id f <> id) -> st' = st)) /\
  (forall updates,
      let st' := updateSignature st id updates st in
      textFields st' = textFields st /\
      List.length (signatures st') = List.length (signatures st) /\
      (forall i s,
          nth_error (signatures st) i = Some s ->
          (Signature.id s <> id -> nth_error (signatures st') i = Some s) /\
          (Signature.id s = id ->
           nth_error (signatures st') i = Some (Signature.spread s updates))) /\
      ((forall s, In s (signatures st) -> Signature.id s <> id) -> st' = st)) /\
  (forall (f : TextField.t) (u : TextField.partial),
      let f' := TextField.spread f u in
      merged (TextField.p_id u) (TextField.id f) (TextField.id f') /\
      merged (TextField.p_page_number u) (TextField.page_number f)
        (TextField.page_number f') /\
      merged (TextField.p_x_coordinate u) (TextField.x_coordinate f)
        (TextField.x_coordinate f') /\
      merged (TextField.p_y_coordinate u) (TextField.y_coordinate f)
        (TextField.y_coordinate f') /\
      merged (TextField.p_width u) (TextField.width f) (TextField.width f') /\
      merged (TextField.p_height u) (TextField.height f) (TextField.height f') /\
      merged (TextField.p_font_size u) (TextField.font_size f)
        (TextField.font_size f') /\
      merged (TextField.p_text_content u) (TextField.text_content f)
        (TextField.text_content f')) /\
  (forall (s : Signature.t) (u : Signature.partial),
      let s' := Signature.spread s u in
      merged (Signature.p_id u) (Signature.id s) (Signature.id s') /\
      merged (Signature.p_page_number u) (Signature.page_number s)
        (Signature.page_number s') /\
      merged (Signature.p_x_coordinate u) (Signature.x_coordinate s)
        (Signature.x_coordinate s') /\
      merged (Signature.p_y_coordinate u) (Signature.y_coordinate s)
        (Signature.y_coordinate s') /\
      merged (Signature.p_width u) (Signature.width s) (Signature.width s') /\
      merged (Signature.p_height u) (Signature.height s) (Signature.height s') /\
      merged (Signature.p_signature_image_path u)
        (Signature.signature_image_path s) (Signature.signature_image_path s') /\
      merged (option_map Some (Signature.p_imageUrl u)) (Signature.imageUrl s)
        (Signature.imageUrl s')) /\
  (let st' := deleteField st id TypeText st in
   signatures st' = signatures st /\
   textFields st'
     = filter (fun f => negb (String.eqb (TextField.id f) id)) (textFields st) /\
   (forall f, In f (textFields st') <->
              In f (textFields st) /\ TextField.id f <> id)) /\
  (let st' := deleteField st id TypeSignature st in
   textFields st' = textFields st /\
   signatures st'
     = filter (fun s => negb (String.eqb (Signature.id s) id)) (signatures st) /\
   (forall s, In s (signatures st') <->
              In s (signatures st) /\ Signature.id s <> id)).
Proof.
  split; [| split; [| split; [| split; [| split]]]].
  - intros updates st'. subst st'. unfold updateTextField.
    cbn [signatures textFields setTextFields].
    split; [reflexivity |]. split; [apply length_map |]. split.
    + intros i f Hi. rewrite (map_nth_error _ _ _ Hi). split; intros H.
      * rewrite (eqb_false_of_neq _ _ H). reflexivity.
      * rewrite H, String.eqb_refl. reflexivity.
    + intros H. rewrite map_unless_id.
      * destruct st; reflexivity.
      * intros f Hf. apply eqb_false_of_neq, H, Hf.
  - intros updates st'. subst st'. unfold updateSignature.
    cbn [signatures textFields setSignatures].
    split; [reflexivity |]. split; [apply length_map |]. split.
    + intros i s Hi. rewrite (map_nth_error _ _ _ Hi). split; intros H.
      * rewrite (eqb_false_of_neq _ _ H). reflexivity.
      * rewrite H, String.eqb_refl. reflexivity.
    + intros H. rewrite map_unless_id.
      * destruct st; reflexivity.
      * intros s Hs. apply eqb_false_of_neq, H, Hs.
  - apply TextField_spread_merged.
  - apply Signature_spread_merged.
  - cbn [deleteField signatures textFields setTextFields].
    split; [reflexivity |]. split; [reflexivity |].
    intros f. rewrite filter_In, negb_true_iff, String.eqb_neq. reflexivity.
  - cbn [deleteField signatures textFields setSignatures].
    split; [reflexivity |]. split; [reflexivity |].
    intros s. rewrite filter_In, negb_true_iff, String.eqb_neq. reflexivity.
Qed.

Lemma update_delete_frame_witness :
  updateTextField sampleState "text-404"
    (TextField.mkPartial None None (Some 1) (Some 2) None None None None)
    sampleState
  = sampleState.
Proof.
  apply (update_delete_frame sampleState "text-404").
  intros f [<- | []]. discriminate.
Defined.

(** * Further properties *)

(** ** Outcomes of [addSignature] *)

Lemma placeSignature_frame
    (env : PlacementEnv) (pageNum : Z) (x y : Q) (p : string) (st : State) :
  let st' := placeSignature env pageNum x y p st in
  mode st' = ModeNone /\
  activeField st' = Some ("sig-" ++ env_stamp env) /\
  textFields st' = textFields st /\
  scale st' = scale st /\
  signatureImage st' = signatureImage st /\
  alerts st' = alerts st /\
  canvas st' = option_map clearRect (canvas st) /\
  requests st'
  = (requests st
     ++ [GetSignatureImage
           (str_or (split_pop "/" p) (str_or (split_pop "\" p) p))])%list.
Proof.
  unfold placeSignature, loadSignatureImage.
  destruct (match env_image env with
            | Some img => getImageDimensions img
            | None => (DEFAULT_SIGNATURE_WIDTH, DEFAULT_SIGNATURE_HEIGHT)
            end) as [w h].
  cbn. destruct (canvas st) eqn:E; cbn; rewrite ?E; repeat split; reflexivity.
Qed.

(** The four ways [addSignature] can end. *)
Lemma addSignature_outcome
    (r : State) (env : PlacementEnv) (pageNum : Z) (x y : Q) (st : State) :
  let st' := addSignature r env pageNum x y st in
  (exists st0,
      (st0 = st \/ exists data, st0 = send (PostSignatureUpload (CanvasPng data)) st) /\
      st' = alert NoSignatureArtifact st0) \/
  (exists data, st' = send (PostSignatureUpload (CanvasPng data)) st) \/
  (exists st0 p,
      (st0 = st \/ exists data, st0 = send (PostSignatureUpload (CanvasPng data)) st) /\
      st' = placeSignature env pageNum x y p st0).
Proof.
  assert (Hfin : forall ip st0,
             finishSignature env pageNum x y ip st0 = alert NoSignatureArtifact st0 \/
             exists p, finishSignature env pageNum x y ip st0
                       = placeSignature env pageNum x y p st0).
  { intros ip st0. unfold finishSignature.
    destruct ip as [p |]; [destruct (String.eqb p "") |]; eauto. }
  cbv zeta. unfold addSignature.
  destruct (canvas st) as [data |].
  - destruct (negb (truthy (signatureImage r)) && hasContent data).
    + destruct (env_upload env) as [path | err].
      * destruct (Hfin (Some path) (send (PostSignatureUpload (CanvasPng data)) st))
          as [-> | [p ->]].
        -- left. eexists. split; [right; eexists; reflexivity | reflexivity].
        -- right. right. eexists. eexists.
           split; [right; eexists; reflexivity | reflexivity].
      * right. left. eexists. reflexivity.
    + destruct (Hfin (signatureImage r) st) as [-> | [p ->]].
      * left. eexists. split; [left; reflexivity | reflexivity].
      * right. right. eexists. eexists. split; [left; reflexivity | reflexivity].
  - destruct (Hfin (signatureImage r) st) as [-> | [p ->]].
    + left. eexists. split; [left; reflexivity | reflexivity].
    + right. right. eexists. eexists. split; [left; reflexivity | reflexivity].
Qed.

(** What no outcome of [addSignature] touches. *)
Lemma addSignature_frame
    (r : State) (env : PlacementEnv) (pageNum : Z) (x y : Q) (st : State) :
  let st' := addSignature r env pageNum x y st in
  textFields st' = textFields st /\ scale st' = scale st /\
  signatureImage st' = signatureImage st /\
  (signatures st' = signatures st /\ mode st' = mode st \/
   mode st' = ModeNone).
Proof.
  cbv zeta.
  destruct (addSignature_outcome r env pageNum x y st)
    as [(st0 & H0 & ->) | [(data & ->) | (st0 & p & H0 & ->)]].
  - destruct H0 as [-> | (data & ->)]; cbn;
      do 3 (split; [reflexivity |]); left; split; reflexivity.
  - cbn. do 3 (split; [reflexivity |]). left. split; reflexivity.
  - destruct (placeSignature_frame env pageNum x y p st0)
      as (Hm & _ & Ht & Hs & Hi & _).
    rewrite Hm, Ht, Hs, Hi.
    destruct H0 as [-> | (data & ->)]; cbn;
      do 3 (split; [reflexivity |]); right; reflexivity.
Qed.

(** ** Zoom *)

Lemma step_scale (documentId : Z) (isReadOnly : bool) (ev : Event) (st : State) :
  scale (step documentId isReadOnly ev st) = scale st \/
  (exists v, step documentId isReadOnly ev st = setScale v st /\
             (v = Math_max 0.5 (scale st - 0.1) \/
              v = Math_min 2 (scale st + 0.1) \/ v = 1)).
Proof.
  destruct ev; cbn [step];
    try (right; eexists; split; [reflexivity | auto]; fail);
    left;
    unfold handlePageClick, signature_onResize, clearSignature,
      handleSignatureUpload, handleSaveDraft, handleSubmit;
    repeat match goal with
      | |- context [nth_error ?l ?i] => destruct (nth_error l i)
      | |- context [signature_resized ?a ?b ?c ?d] =>
          destruct (signature_resized a b c d)
      | |- context [if ?b then _ else _] => destruct b
      | |- context [match mode ?s with _ => _ end] => destruct (mode s)
      | |- context [match canvas ?s with _ => _ end] => destruct (canvas s)
      | |- context [match ?d with Some _ => _ | None => _ end] => destruct d
      | |- context [match ?u with Ok _ => _ | Err _ => _ end] => destruct u
      end;
    try reflexivity;
    apply addSignature_frame.
Qed.

(** X1.  Zoom stays within 50% and 200%.  Starting from a scale in
    [[1/2, 2]] (the initial scale is 1), no sequence of user events takes
    the scale out of that interval, so the scale is always positive; and
    the three zoom buttons change nothing but the scale: the stored
    text fields and signatures are the same before and after. *)
Theorem zoom_stays_in_range
    (documentId : Z) (isReadOnly : bool) (evs : list Event) (st : State) :
  1 # 2 <= scale st <= 2 ->
  1 # 2 <= scale (run documentId isReadOnly evs st) <= 2 /\
  0 < scale (run documentId isReadOnly evs st) /\
  (forall ev,
      ev = ZoomInButton \/ ev = ZoomOutButton \/ ev = FitButton ->
      textFields (step documentId isReadOnly ev st) = textFields st /\
      signatures (step documentId isReadOnly ev st) = signatures st).
Proof.
  intros Hs.
  assert (Hrun : forall evs st,
             1 # 2 <= scale st <= 2 ->
             1 # 2 <= scale (run documentId isReadOnly evs st) <= 2).
  { clear. intros evs. induction evs as [| ev evs IH]; intros st Hs.
    - exact Hs.
    - cbn [run]. apply IH.
      destruct (step_scale documentId isReadOnly ev st)
        as [-> | (v & -> & Hv)]; [exact Hs |].
      cbn [scale setScale].
      destruct Hv as [-> | [-> | ->]].
      + destruct (Math_max_spec 0.5 (scale st - 0.1)) as [[H ->] | [H ->]]; lra.
      + destruct (Math_min_spec 2 (scale st + 0.1)) as [[H ->] | [H ->]]; lra.
      + lra. }
  split; [apply Hrun, Hs |].
  split; [pose proof (Hrun evs st Hs); lra |].
  intros ev [-> | [-> | ->]]; split; reflexivity.
Qed.

Lemma zoom_stays_in_range_witness :
  scale (run 7 false [ZoomInButton; ZoomInButton; ZoomInButton; ZoomInButton;
                      ZoomInButton; ZoomInButton] sampleState) <= 2.
Proof.
  apply (zoom_stays_in_range 7 false
           [ZoomInButton; ZoomInButton; ZoomInButton; ZoomInButton;
            ZoomInButton; ZoomInButton] sampleState).
  split; vm_compute; discriminate.
Defined.

(** ** Placement resets the mode *)

(** X2.  Creating an annotation returns the mode to ['none'].  Whenever a
    page click changes the text fields or the signatures, the mode after
    it is ['none']; the next placement needs a new press of a mode
    button. *)
Theorem placement_resets_mode
    (documentId : Z) (isReadOnly : bool) (e : MouseEvent) (pageNum : Z)
    (env : PlacementEnv) (st : State) :
  let st' := step documentId isReadOnly (PageClick e pageNum env) st in
  textFields st' <> textFields st \/ signatures st' <> signatures st ->
  mode st' = ModeNone.
Proof.
  cbv zeta. cbn [step]. intros H.
  destruct (pageRendered st pageNum); [| destruct H as [H | H]; congruence].
  revert H. unfold handlePageClick.
  destruct (_ || _); [intros [H | H]; congruence |].
  destruct (mode st) eqn:Hm.
  - intros [H | H]; congruence.
  - intros _. reflexivity.
  - intros H.
    destruct (addSignature_frame st env pageNum
                (toDocument (clientX e - rect_left e) (scale st))
                (toDocument (clientY e - rect_top e) (scale st)) st)
      as (Ht & _ & _ & [[Hs _] | Hnone]).
    + destruct H as [H | H]; congruence.
    + exact Hnone.
Qed.

Lemma placement_resets_mode_witness :
  mode (step 7 false (PageClick sampleClick 1 plainImageEnv) uploadedState)
  = ModeNone.
Proof.
  apply (placement_resets_mode 7 false sampleClick 1 plainImageEnv uploadedState).
  right. cbn. discriminate.
Defined.

(** ** Where the signature artifact comes from *)

Lemma hasContent_clearRect (data : list Z) : hasContent (clearRect data) = false.
Proof.
  apply hasContent_transparent. intros k a H. unfold clearRect in H.
  rewrite nth_error_map in H.
  destruct (nth_error data (4 * k + 3)); cbn in H; congruence.
Qed.

Lemma addSignature_uploaded
    (r : State) (env : PlacementEnv) (pageNum : Z) (x y : Q) (st : State)
    (p : string) :
  signatureImage r = Some p -> p <> "" ->
  addSignature r env pageNum x y st = placeSignature env pageNum x y p st.
Proof.
  intros Hp Hne. apply String.eqb_neq in Hne.
  unfold addSignature, finishSignature, truthy. rewrite Hp, Hne. cbn [negb andb].
  destruct (canvas st); reflexivity.
Qed.

Lemma addSignature_blank (r : State) (env : PlacementEnv) (pageNum : Z) (x y : Q)
    (st : State) :
  truthy (signatureImage r) = false ->
  (forall data, canvas st = Some data -> hasContent data = false) ->
  addSignature r env pageNum x y st = alert NoSignatureArtifact st.
Proof.
  intros Hsig Hc.
  assert (Hfin : finishSignature env pageNum x y (signatureImage r) st
                 = alert NoSignatureArtifact st).
  { unfold finishSignature, truthy in *.
    destruct (signatureImage r) as [p |]; [| reflexivity].
    apply negb_false_iff in Hsig. rewrite Hsig. reflexivity. }
  unfold addSignature. rewrite Hsig. cbn [negb andb].
  destruct (canvas st) as [data |]; [| exact Hfin].
  rewrite (Hc data eq_refl). exact Hfin.
Qed.

(** X3.  A drawn signature is used once.  When nothing is uploaded, the
    canvas has content and its upload answers with a non-empty path, the
    placement sends the canvas and then fetches the preview, appends one
    signature that refers to the returned path, resets the mode, leaves
    [signatureImage] as it was and clears the canvas; a placement attempted
    right after it fails with [NoSignatureArtifact]. *)
Theorem drawn_signature_is_single_use
    (st : State) (env : PlacementEnv) (pageNum : Z) (x y : Q)
    (data : list Z) (path : string) :
  truthy (signatureImage st) = false ->
  canvas st = Some data ->
  hasContent data = true ->
  env_upload env = Ok path ->
  path <> "" ->
  let st1 := addSignature st env pageNum x y st in
  (exists sig,
      signatures st1 = (signatures st ++ [sig])%list /\
      Signature.signature_image_path sig = path /\
      Signature.x_coordinate sig = x /\ Signature.y_coordinate sig = y /\
      Signature.page_number sig = pageNum) /\
  (exists filename,
      requests st1
      = (requests st ++ [PostSignatureUpload (CanvasPng data);
                         GetSignatureImage filename])%list) /\
  canvas st1 = Some (clearRect data) /\
  mode st1 = ModeNone /\
  signatureImage st1 = signatureImage st /\
  (forall env' pageNum' x' y',
      addSignature st1 env' pageNum' x' y' st1 = alert NoSignatureArtifact st1).
Proof.
  intros Hsig Hc Hhas Hup Hne st1.
  assert (E : st1 = placeSignature env pageNum x y path
                      (send (PostSignatureUpload (CanvasPng data)) st)).
  { subst st1. unfold addSignature. rewrite Hc, Hsig, Hhas, Hup. cbn [negb andb].
    unfold finishSignature. apply String.eqb_neq in Hne. rewrite Hne. reflexivity. }
  destruct (placeSignature_frame env pageNum x y path
              (send (PostSignatureUpload (CanvasPng data)) st))
    as (Hm & _ & _ & _ & Hi & _ & Hcv & Hrq).
  destruct (placeSignature_signatures env pageNum x y path
              (send (PostSignatureUpload (CanvasPng data)) st)) as (url & Hsg).
  rewrite <- E in *. cbn in Hi, Hcv, Hrq, Hsg. rewrite Hc in Hcv. cbn in Hcv.
  split; [eexists; split; [exact Hsg | cbn; auto] |].
  split; [eexists; rewrite Hrq, <- app_assoc; reflexivity |].
  split; [exact Hcv |]. split; [exact Hm |]. split; [exact Hi |].
  intros env' pageNum' x' y'. apply addSignature_blank.
  - rewrite Hi. exact Hsig.
  - intros data' Hd. rewrite Hcv in Hd. injection Hd as <-.
    apply hasContent_clearRect.
Qed.

Lemma drawn_signature_is_single_use_witness :
  addSignature (addSignature drawnState drawnEnv 1 30 45 drawnState)
    drawnEnv 1 60 45 (addSignature drawnState drawnEnv 1 30 45 drawnState)
  = alert NoSignatureArtifact (addSignature drawnState drawnEnv 1 30 45 drawnState).
Proof.
  apply (drawn_signature_is_single_use drawnState drawnEnv 1 30 45
           [0; 0; 0; 255; 0; 0; 0; 0]%Z "uploads/drawn.png");
    try reflexivity.
  discriminate.
Defined.

(** X4.  Placements of an uploaded signature accumulate.  With a non-empty
    uploaded path in the closure, two placements started from the same
    render (the second click arriving while the first placement is still
    waiting for the network) both end up in [signatures], in order, both
    referring to the uploaded path; the functional update
    [setSignatures(prev => ...)] loses neither.  The uploaded path stays
    in place, so it serves later placements as well. *)
Theorem uploaded_placements_accumulate
    (r st : State) (p : string) (env1 env2 : PlacementEnv)
    (pageNum1 pageNum2 : Z) (x1 y1 x2 y2 : Q) :
  signatureImage r = Some p -> p <> "" ->
  let st1 := addSignature r env1 pageNum1 x1 y1 st in
  let st2 := addSignature r env2 pageNum2 x2 y2 st1 in
  (exists sig1 sig2,
      signatures st2 = (signatures st ++ [sig1; sig2])%list /\
      Signature.id sig1 = ("sig-" ++ env_stamp env1)%string /\
      Signature.id sig2 = ("sig-" ++ env_stamp env2)%string /\
      Signature.signature_image_path sig1 = p /\
      Signature.signature_image_path sig2 = p /\
      Signature.x_coordinate sig1 = x1 /\ Signature.x_coordinate sig2 = x2) /\
  signatureImage st2 = signatureImage st /\
  mode st2 = ModeNone.
Proof.
  intros Hp Hne st1 st2. subst st1 st2.
  rewrite !(addSignature_uploaded r _ _ _ _ _ p Hp Hne).
  set (st1 := placeSignature env1 pageNum1 x1 y1 p st).
  destruct (placeSignature_signatures env1 pageNum1 x1 y1 p st) as (u1 & H1).
  destruct (placeSignature_signatures env2 pageNum2 x2 y2 p st1) as (u2 & H2).
  destruct (placeSignature_frame env1 pageNum1 x1 y1 p st) as (_ & _ & _ & _ & Hi1 & _).
  destruct (placeSignature_frame env2 pageNum2 x2 y2 p st1)
    as (Hm2 & _ & _ & _ & Hi2 & _).
  fold st1 in H1, Hi1.
  split; [| split; [rewrite Hi2, Hi1; reflexivity | exact Hm2]].
  eexists. eexists. split.
  - rewrite H2, H1, <- app_assoc. reflexivity.
  - cbn. repeat split; reflexivity.
Qed.

Lemma uploaded_placements_accumulate_witness :
  mode (addSignature uploadedState wideImageEnv 1 60 45
          (addSignature uploadedState plainImageEnv 1 30 45 uploadedState))
  = ModeNone.
Proof.
  apply (uploaded_placements_accumulate uploadedState uploadedState
           "uploads/wide.png" plainImageEnv wideImageEnv 1 1 30 45 60 45).
  - reflexivity.
  - discriminate.
Defined.

Lemma Legacy_addSignature_uploaded
    (r : State) (env : PlacementEnv) (pageNum : Z) (x y : Q) (st : State)
    (p : string) :
  signatureImage r = Some p -> p <> "" ->
  exists url,
    signatures (Legacy.addSignature r env pageNum x y st)
    = (signatures r
       ++ [Signature.mk ("sig-" ++ env_stamp env) pageNum x y
             DEFAULT_SIGNATURE_WIDTH DEFAULT_SIGNATURE_HEIGHT p (Some url)])%list.
Proof.
  intros Hp Hne. apply String.eqb_neq in Hne.
  unfold Legacy.addSignature, truthy, loadSignatureImage.
  rewrite Hp, Hne. cbn [negb andb].
  eexists. destruct (canvas st); cbn; reflexivity.
Qed.

(** X5.  In the earlier variant a second placement started from the same
    render overwrites the first.  Its [addSignature] calls
    [setSignatures([...signatures, newSignature])] with the closure's
    array, so of two placements that share a closure only the one that
    finishes last is kept, at the default 150 x 60. *)
Theorem legacy_concurrent_placement_loses_first
    (r st : State) (p : string) (env1 env2 : PlacementEnv)
    (pageNum1 pageNum2 : Z) (x1 y1 x2 y2 : Q) :
  signatureImage r = Some p -> p <> "" ->
  let st1 := Legacy.addSignature r env1 pageNum1 x1 y1 st in
  let st2 := Legacy.addSignature r env2 pageNum2 x2 y2 st1 in
  exists sig2,
    signatures st2 = (signatures r ++ [sig2])%list /\
    Signature.id sig2 = ("sig-" ++ env_stamp env2)%string /\
    Signature.x_coordinate sig2 = x2 /\ Signature.y_coordinate sig2 = y2 /\
    Signature.width sig2 = 150 /\ Signature.height sig2 = 60.
Proof.
  intros Hp Hne st1 st2. subst st2.
  destruct (Legacy_addSignature_uploaded r env2 pageNum2 x2 y2 st1 p Hp Hne)
    as (url & H).
  eexists. split; [exact H |]. cbn. repeat split; reflexivity.
Qed.

Lemma legacy_concurrent_placement_loses_first_witness :
  List.length
    (signatures
       (Legacy.addSignature uploadedState wideImageEnv 1 60 45
          (Legacy.addSignature uploadedState plainImageEnv 1 30 45 uploadedState)))
  = 2%nat.
Proof.
  destruct (legacy_concurrent_placement_loses_first uploadedState uploadedState
              "uploads/wide.png" plainImageEnv wideImageEnv 1 1 30 45 60 45
              eq_refl) as (sig2 & H & _).
  - discriminate.
  - rewrite H. reflexivity.
Defined.

(** X6.  A failed upload of the drawn signature is silent.  When nothing
    is uploaded, the canvas has content and its upload throws, the
    placement stops after that one request: no alert is raised, nothing is
    appended, and mode, selection and canvas are what they were. *)
Theorem canvas_upload_failure_is_silent
    (st : State) (env : PlacementEnv) (pageNum : Z) (x y : Q)
    (data : list Z) (serverError : option string) :
  truthy (signatureImage st) = false ->
  canvas st = Some data ->
  hasContent data = true ->
  env_upload env = Err serverError ->
  let st' := addSignature st env pageNum x y st in
  requests st' = (requests st ++ [PostSignatureUpload (CanvasPng data)])%list /\
  alerts st' = alerts st /\
  signatures st' = signatures st /\ textFields st' = textFields st /\
  mode st' = mode st /\ activeField st' = activeField st /\
  canvas st' = canvas st.
Proof.
  intros Hsig Hc Hhas Hup st'. subst st'.
  unfold addSignature. rewrite Hc, Hsig, Hhas, Hup. cbn.
  rewrite Hc. repeat split; reflexivity.
Qed.

Lemma canvas_upload_failure_is_silent_witness :
  alerts (addSignature drawnState
            (mkPlacementEnv "2-0.25" (Err None) None None) 1 30 45 drawnState)
  = [].
Proof.
  apply (canvas_upload_failure_is_silent drawnState
           (mkPlacementEnv "2-0.25" (Err None) None None) 1 30 45
           [0; 0; 0; 255; 0; 0; 0; 0]%Z None);
    reflexivity.
Defined.

(** X7.  [Clear Canvas] discards every artifact.  With the canvas mounted,
    [clearSignature] blanks the canvas and forgets the uploaded path
    without touching the annotations, and a placement attempted next fails
    with [NoSignatureArtifact]; with no canvas mounted it does nothing, the
    uploaded path included. *)
Theorem clearSignature_discards_artifacts (st : State) :
  (forall data,
      canvas st = Some data ->
      let st1 := clearSignature st in
      canvas st1 = Some (clearRect data) /\
      signatureImage st1 = None /\
      textFields st1 = textFields st /\ signatures st1 = signatures st /\
      (forall env pageNum x y,
          addSignature st1 env pageNum x y st1 = alert NoSignatureArtifact st1)) /\
  (canvas st = None -> clearSignature st = st).
Proof.
  split.
  - intros data Hc st1. subst st1. unfold clearSignature. rewrite Hc.
    do 4 (split; [reflexivity |]).
    intros env pageNum x y. apply addSignature_blank; [reflexivity |].
    cbn. intros data' Hd. injection Hd as <-. apply hasContent_clearRect.
  - intros Hc. unfold clearSignature. rewrite Hc. reflexivity.
Qed.

Lemma clearSignature_discards_artifacts_witness :
  signatureImage (clearSignature uploadedState) = None.
Proof.
  destruct (clearSignature_discards_artifacts uploadedState) as [H _].
  apply (H [0; 0; 0; 0; 0; 0; 0; 0]%Z eq_refl).
Defined.

(** ** Submitting *)

(** X8.  [handleSubmit] asks first and sends once.  Declined at the
    [confirm] prompt it does nothing at all.  Confirmed, it sends exactly
    one [POST /signing/{id}/submit] whose body is the body a draft save
    from the same state would send, and never touches the annotation
    model; on success it raises [DocumentSigned] and calls [onSubmit], on
    failure it raises [SubmitFailed] with the server's message and does
    not call [onSubmit]. *)
Theorem submit_sends_the_draft_body
    (documentId : Z) (st : State) (resp draftResp : Response unit) :
  handleSubmit documentId st false resp st = st /\
  let st' := handleSubmit documentId st true resp st in
  (exists body,
      requests st' = (requests st ++ [PostSubmit documentId body])%list /\
      requests (handleSaveDraft documentId st draftResp st)
      = (requests st ++ [PostDraft documentId body])%list) /\
  textFields st' = textFields st /\ signatures st' = signatures st /\
  mode st' = mode st /\
  (forall u, resp = Ok u ->
             alerts st' = (alerts st ++ [DocumentSigned])%list /\
             callbacks st' = (callbacks st ++ [OnSubmit])%list) /\
  (forall e, resp = Err e ->
             alerts st' = (alerts st ++ [SubmitFailed e])%list /\
             callbacks st' = callbacks st).
Proof.
  split; [reflexivity |]. cbv zeta. unfold handleSubmit, handleSaveDraft.
  cbn [negb].
  split.
  { eexists. split; [destruct resp | destruct draftResp]; reflexivity. }
  destruct resp as [u | e]; cbn; repeat split; intros; try reflexivity;
    try discriminate;
    match goal with H : _ = _ |- _ => injection H as <- end; reflexivity.
Qed.

(** ** Uploading: what reaches the network *)

Ltac upload_rejected :=
  split;
  [ intros _; cbn;
    split; [reflexivity | split; [eexists; reflexivity | reflexivity]]
  | split; [discriminate | reflexivity] ].

(** X9.  A rejected file never reaches the network.  If the chosen file
    fails any of the three checks (size, type, decoded dimensions, a file
    that does not decode included), [handleSignatureUpload] sends nothing,
    raises exactly one alert and keeps the active signature source; if it
    passes them all, the file itself is the next request sent.  With no
    file chosen nothing happens. *)
Theorem upload_sent_only_if_valid
    (file : File) (decoded : option Image) (upload : Response string)
    (blobUrl : option string) (st : State) :
  let st' := handleSignatureUpload (Some file) decoded upload blobUrl st in
  (passesValidation file decoded = false ->
   requests st' = requests st /\
   (exists a, alerts st' = (alerts st ++ [a])%list) /\
   signatureImage st' = signatureImage st) /\
  (passesValidation file decoded = true ->
   exists rest,
     requests st'
     = (requests st ++ PostSignatureUpload (UploadedFile file) :: rest)%list) /\
  handleSignatureUpload None decoded upload blobUrl st = st.
Proof.
  cbv zeta. unfold handleSignatureUpload, passesValidation.
  rewrite Z.gtb_ltb, Z.ltb_antisym.
  destruct (Z.leb (file_size file) MAX_FILE_SIZE); cbn [negb andb].
  2:{ upload_rejected. }
  destruct (includes validTypes (file_type file)); cbn [negb andb].
  2:{ upload_rejected. }
  destruct decoded as [img |].
  2:{ upload_rejected. }
  rewrite !Z.gtb_ltb, !Z.ltb_antisym.
  destruct (Z.leb (img_width img) 2000); cbn [negb andb orb].
  2:{ upload_rejected. }
  destruct (Z.leb (img_height img) 2000); cbn [negb andb orb].
  2:{ upload_rejected. }
  split; [discriminate |]. split; [| reflexivity].
  intros _. destruct upload as [path | e]; cbn.
  - eexists. rewrite <- app_assoc. reflexivity.
  - eexists. reflexivity.
Qed.

Lemma upload_sent_only_if_valid_witness :
  requests (handleSignatureUpload (Some oversizePdf) None (Ok "uploads/x.pdf")
              (Some "blob:6") sampleState)
  = requests sampleState.
Proof.
  apply (upload_sent_only_if_valid oversizePdf None (Ok "uploads/x.pdf")
           (Some "blob:6") sampleState).
  reflexivity.
Defined.

(** ** The file name asked of the asset store *)

Lemma split_pop_from_free (sep : ascii) (s acc : string) :
  occurs sep s = false -> split_pop_from sep s acc = (acc ++ s)%string.
Proof.
  revert acc. induction s as [| c s IH]; intros acc H; cbn [split_pop_from].
  - clear H. induction acc as [| a acc IHa]; cbn; congruence.
  - cbn [occurs] in H. apply orb_false_iff in H as [Hc Hs].
    rewrite Hc, (IH _ Hs).
    clear. induction acc as [| a acc IHa]; cbn; congruence.
Qed.

Lemma split_pop_from_last (sep : ascii) (a b acc : string) :
  split_pop_from sep (a ++ String sep b) acc = split_pop_from sep b "".
Proof.
  revert acc. induction a as [| c a IH]; intros acc; cbn [append split_pop_from].
  - rewrite Ascii.eqb_refl. reflexivity.
  - destruct (Ascii.eqb c sep); apply IH.
Qed.

(** X10.  Which file [loadSignatureImage] asks for.  For a stored path
    [dir/name], with [name] non-empty and free of ['/'], the preview
    request names [name]; a path without any ['/'] is requested as it is,
    backslashes included, since the split on the backslash is only reached
    when the part after the last ['/'] is empty.  The handler sends that
    one request, changes nothing else, and yields the object URL, or the
    empty string when the fetch fails. *)
Theorem loadSignatureImage_filename
    (path : string) (blobUrl : option string) (st : State) :
  let url := fst (loadSignatureImage path blobUrl st) in
  let st' := snd (loadSignatureImage path blobUrl st) in
  (forall dir name,
      path = (dir ++ "/" ++ name)%string -> name <> "" ->
      occurs "/" name = false ->
      requests st' = (requests st ++ [GetSignatureImage name])%list) /\
  (occurs "/" path = false ->
   requests st' = (requests st ++ [GetSignatureImage path])%list) /\
  (exists filename, st' = send (GetSignatureImage filename) st) /\
  (forall u, blobUrl = Some u -> url = u) /\
  (blobUrl = None -> url = "").
Proof.
  cbv zeta. unfold loadSignatureImage. cbn [fst snd].
  split; [| split; [| split; [| split]]].
  - intros dir name -> Hne Hfree. cbn [requests send].
    unfold split_pop at 1. cbn [append].
    rewrite split_pop_from_last, (split_pop_from_free _ _ _ Hfree).
    cbn [append]. unfold str_or at 1.
    apply String.eqb_neq in Hne. rewrite Hne. reflexivity.
  - intros Hfree. cbn [requests send].
    unfold split_pop at 1. rewrite (split_pop_from_free _ _ _ Hfree).
    cbn [append]. unfold str_or.
    destruct (String.eqb_spec path ""); [| reflexivity].
    subst path. reflexivity.
  - eexists. reflexivity.
  - intros u ->. reflexivity.
  - intros ->. reflexivity.
Qed.

Lemma loadSignatureImage_filename_witness :
  requests (snd (loadSignatureImage "uploads/signatures/ada.png" None sampleState))
  = [GetSignatureImage "ada.png"].
Proof.
  destruct (loadSignatureImage_filename "uploads/signatures/ada.png" None
              sampleState) as [H _].
  apply (H "uploads/signatures" "ada.png"); [reflexivity | discriminate | reflexivity].
Defined.

Lemma submit_sends_the_draft_body_witness :
  callbacks (handleSubmit 7 sampleState true (Ok tt) sampleState) = [OnSubmit].
Proof.
  destruct (submit_sends_the_draft_body 7 sampleState (Ok tt) (Ok tt))
    as (_ & _ & _ & _ & _ & H & _).
  apply (H tt eq_refl).
Defined.

(** ** Loading the draft *)

Lemma string_of_Z_nonempty (z : Z) : string_of_Z z <> "".
Proof.
  unfold string_of_Z. destruct (Z.to_int z) as [d | d]; cbn.
  - destruct d; cbn; discriminate.
  - discriminate.
Qed.

Lemma nth_error_mapi_from {A B : Type} (f : nat -> A -> B) (l : list A)
    (k i : nat) :
  nth_error (mapi_from f l k) i = option_map (f (k + i)%nat) (nth_error l i).
Proof.
  revert k i. induction l as [| a l IH]; intros k i.
  - destruct i; reflexivity.
  - destruct i as [| i]; cbn [mapi_from nth_error option_map].
    + rewrite Nat.add_0_r. reflexivity.
    + rewrite IH, Nat.add_succ_r. reflexivity.
Qed.

Lemma length_mapi_from {A B : Type} (f : nat -> A -> B) (l : list A) (k : nat) :
  List.length (mapi_from f l k) = List.length l.
Proof.
  revert k. induction l as [| a l IH]; intros k; cbn; [| rewrite IH]; reflexivity.
Qed.

Lemma loadPreviews_spec (blobOf : nat -> option string) (l : list DraftSignature)
    (k : nat) (st : State) :
  let urls := fst (loadPreviews blobOf l k st) in
  let st' := snd (loadPreviews blobOf l k st) in
  (forall i, (i < List.length l)%nat ->
             nth i urls "" = match blobOf (k + i)%nat with
                             | Some u => u
                             | None => ""
                             end) /\
  List.length (requests st') = (List.length (requests st) + List.length l)%nat /\
  textFields st' = textFields st /\ signatures st' = signatures st /\
  alerts st' = alerts st /\ mode st' = mode st.
Proof.
  revert k st. induction l as [| sig l IH]; intros k st; cbn [loadPreviews].
  - cbn. repeat split; try reflexivity; intros; lia.
  - unfold loadSignatureImage.
    set (st1 := send _ st).
    specialize (IH (S k) st1). cbv zeta in IH.
    destruct (loadPreviews blobOf l (S k) st1) as [urls st2].
    cbv beta iota zeta. cbn [fst snd] in *.
    destruct IH as (Hn & Hr & Ht & Hs & Ha & Hm).
    split; [| split].
    + intros [| i] Hi; cbn [nth].
      * rewrite Nat.add_0_r. reflexivity.
      * rewrite Hn, Nat.add_succ_r; [reflexivity | cbn in Hi; lia].
    + rewrite Hr. subst st1. cbn. rewrite length_app. cbn. lia.
    + rewrite Ht, Hs, Ha, Hm. subst st1. cbn. auto.
Qed.

(** X11.  What [loadDraft] loads.  A failed draft fetch leaves the state
    as it is.  A missing or empty [textFields] array sets nothing; a
    non-empty one replaces the text fields by one field per record, in
    order, with the record's page, geometry, font size and text, an id
    that is the decimal server id when there is one and a generated
    [text-...] id otherwise.  A non-empty [signatures] array is loaded in
    full whichever preview fetches fail: one signature and one preview
    request per record, each signature with the record's page, geometry
    and path, and with its preview URL, which is empty when that fetch
    failed. *)
Theorem loadDraft_outcomes
    (textStamp sigStamp : nat -> string) (blobOf : nat -> option string)
    (st : State) :
  (forall e, loadDraft (Err e) textStamp sigStamp blobOf st = st) /\
  (forall data,
      let st' := loadDraft (Ok data) textStamp sigStamp blobOf st in
      (data_textFields data = None \/ data_textFields data = Some [] ->
       textFields st' = textFields st) /\
      (data_signatures data = None \/ data_signatures data = Some [] ->
       signatures st' = signatures st /\ requests st' = requests st) /\
      (forall tfs,
          data_textFields data = Some tfs -> tfs <> [] ->
          List.length (textFields st') = List.length tfs /\
          forall i d,
            nth_error tfs i = Some d ->
            exists tf,
              nth_error (textFields st') i = Some tf /\
              TextField.page_number tf = dtf_page_number d /\
              TextField.x_coordinate tf = dtf_x_coordinate d /\
              TextField.y_coordinate tf = dtf_y_coordinate d /\
              TextField.width tf = dtf_width d /\
              TextField.height tf = dtf_height d /\
              TextField.font_size tf = dtf_font_size d /\
              TextField.text_content tf = dtf_text_content d /\
              (forall n, dtf_id d = Some n -> TextField.id tf = string_of_Z n) /\
              (dtf_id d = None ->
               TextField.id tf = ("text-" ++ textStamp i)%string)) /\
      (forall sigs,
          data_signatures data = Some sigs -> sigs <> [] ->
          List.length (signatures st') = List.length sigs /\
          List.length (requests st')
          = (List.length (requests st) + List.length sigs)%nat /\
          forall i d,
            nth_error sigs i = Some d ->
            exists sig,
              nth_error (signatures st') i = Some sig /\
              Signature.page_number sig = dsig_page_number d /\
              Signature.x_coordinate sig = dsig_x_coordinate d /\
              Signature.y_coordinate sig = dsig_y_coordinate d /\
              Signature.width sig = dsig_width d /\
              Signature.height sig = dsig_height d /\
              Signature.signature_image_path sig = dsig_signature_image_path d /\
              Signature.imageUrl sig
              = Some (match blobOf i with Some u => u | None => "" end) /\
              (forall n, dsig_id d = Some n -> Signature.id sig = string_of_Z n) /\
              (dsig_id d = None ->
               Signature.id sig = ("sig-" ++ sigStamp i)%string))).
Proof.
  split; [reflexivity |].
  intros [otfs osigs]. cbv zeta. unfold loadDraft.
  cbn [data_textFields data_signatures].
  set (st1 := match otfs with
              | Some ((_ :: _) as tfs) =>
                  setTextFields
                    (mapi_from (fun i tf => loadedTextField (textStamp i) tf) tfs 0) st
              | _ => st
              end).
  assert (Hst1 : signatures st1 = signatures st /\ requests st1 = requests st).
  { subst st1. destruct otfs as [[| d tfs] |]; cbn; auto. }
  destruct Hst1 as [Hs1 Hr1].
  assert (Htf : forall st2 : State,
             textFields st2 = textFields st1 ->
             (otfs = None \/ otfs = Some [] -> textFields st2 = textFields st) /\
             (forall tfs,
                 otfs = Some tfs -> tfs <> [] ->
                 List.length (textFields st2) = List.length tfs /\
                 forall i d,
                   nth_error tfs i = Some d ->
                   exists tf,
                     nth_error (textFields st2) i = Some tf /\
                     TextField.page_number tf = dtf_page_number d /\
                     TextField.x_coordinate tf = dtf_x_coordinate d /\
                     TextField.y_coordinate tf = dtf_y_coordinate d /\
                     TextField.width tf = dtf_width d /\
                     TextField.height tf = dtf_height d /\
                     TextField.font_size tf = dtf_font_size d /\
                     TextField.text_content tf = dtf_text_content d /\
                     (forall n, dtf_id d = Some n ->
                                TextField.id tf = string_of_Z n) /\
                     (dtf_id d = None ->
                      TextField.id tf = ("text-" ++ textStamp i)%string))).
  { intros st2 H2. rewrite H2. subst st1. split.
    - intros [-> | ->]; reflexivity.
    - intros tfs -> Hne. destruct tfs as [| d0 tfs0]; [congruence |].
      cbn [textFields setTextFields].
      split; [apply length_mapi_from |].
      intros i d Hi. rewrite nth_error_mapi_from, Hi. cbn [option_map Nat.add].
      eexists. split; [reflexivity |]. cbn.
      repeat split; try reflexivity.
      + intros n ->. unfold str_or.
        destruct (String.eqb_spec (string_of_Z n) "") as [E | _]; [| reflexivity].
        destruct (string_of_Z_nonempty n E).
      + intros ->. reflexivity. }
  destruct osigs as [[| d0 sigs0] |].
  - destruct (Htf st1 eq_refl) as [Ha Hb].
    split; [exact Ha |]. split; [auto |]. split; [exact Hb |].
    intros sigs [= <-] Hne. congruence.
  - pose proof (loadPreviews_spec blobOf (d0 :: sigs0) 0 st1) as Hp.
    cbv zeta in Hp.
    destruct (loadPreviews blobOf (d0 :: sigs0) 0 st1) as [urls st2].
    cbn [fst snd] in Hp. destruct Hp as (Hn & Hr & Ht & _).
    destruct (Htf (setSignatures
                     (mapi_from (fun i sig =>
                                   loadedSignature (sigStamp i) (nth i urls "") sig)
                                (d0 :: sigs0) 0) st2) Ht) as [Ha Hb].
    split; [exact Ha |].
    split; [intros [H | H]; discriminate H |].
    split; [exact Hb |].
    intros sigs [= <-] _. cbn [signatures setSignatures requests].
    split; [apply length_mapi_from |].
    split; [rewrite Hr, Hr1; reflexivity |].
    intros i d Hi. rewrite nth_error_mapi_from, Hi. cbn [option_map Nat.add].
    eexists. split; [reflexivity |]. cbn - [nth].
    assert (Hlt : (i < List.length (d0 :: sigs0))%nat)
      by (apply nth_error_Some; congruence).
    rewrite (Hn i Hlt). cbn [Nat.add].
    repeat split; try reflexivity.
    + intros n ->. unfold str_or.
      destruct (String.eqb_spec (string_of_Z n) "") as [E | _]; [| reflexivity].
      destruct (string_of_Z_nonempty n E).
    + intros ->. reflexivity.
  - destruct (Htf st1 eq_refl) as [Ha Hb].
    split; [exact Ha |]. split; [auto |]. split; [exact Hb |].
    intros sigs H. discriminate H.
Qed.

Lemma loadDraft_outcomes_witness :
  exists sig,
    nth_error
      (signatures
         (loadDraft
            (Ok (mkDraftData None
                   (Some [mkDraftSignature (Some 12%Z) 1 40 50 100 50
                            "uploads/a.png";
                          mkDraftSignature None 2 10 10 120 60
                            "uploads/b.png"])))
            (fun _ => "t") (fun _ => "s") (fun _ => None) initialState)) 1
    = Some sig /\
    Signature.imageUrl sig = Some "" /\ Signature.id sig = "sig-s".
Proof.
  destruct (loadDraft_outcomes (fun _ => "t") (fun _ => "s") (fun _ => None)
              initialState) as [_ H].
  destruct (H (mkDraftData None
                 (Some [mkDraftSignature (Some 12%Z) 1 40 50 100 50
                          "uploads/a.png";
                        mkDraftSignature None 2 10 10 120 60
                          "uploads/b.png"]))) as (_ & _ & _ & Hs).
  destruct (Hs _ eq_refl) as (_ & _ & Hnth); [discriminate |].
  destruct (Hnth 1%nat _ eq_refl)
    as (sig & H1 & _ & _ & _ & _ & _ & _ & Hurl & _ & Hid).
  exists sig. split; [exact H1 |]. split; [exact Hurl | exact (Hid eq_refl)].
Defined.

(** ** Deleting through the interface *)

(** X12.  Only the selected annotation can be deleted, and the selection
    outlives it.  The delete button of a text field or signature exists
    only while that annotation is the active one (and the session is not
    read-only): a delete event for any other annotation does nothing.
    Deleting removes every annotation of that collection with the id and
    leaves [activeField] naming the deleted id. *)
Theorem delete_keeps_selection (documentId : Z) (st : State) (i : nat) :
  (forall tf,
      nth_error (textFields st) i = Some tf ->
      let st' := step documentId false (TextFieldDelete i) st in
      (activeField st <> Some (TextField.id tf) -> st' = st) /\
      (activeField st = Some (TextField.id tf) ->
       pageRendered st (TextField.page_number tf) = true ->
       activeField st' = Some (TextField.id tf) /\
       (forall f, In f (textFields st') -> TextField.id f <> TextField.id tf) /\
       signatures st' = signatures st)) /\
  (forall sig,
      nth_error (signatures st) i = Some sig ->
      let st' := step documentId false (SignatureDelete i) st in
      (activeField st <> Some (Signature.id sig) -> st' = st) /\
      (activeField st = Some (Signature.id sig) ->
       pageRendered st (Signature.page_number sig) = true ->
       activeField st' = Some (Signature.id sig) /\
       (forall s, In s (signatures st') -> Signature.id s <> Signature.id sig) /\
       textFields st' = textFields st)).
Proof.
  assert (Hact : forall id, activeField st <> Some id -> isActive st id = false).
  { intros id H. unfold isActive. destruct (activeField st) as [a |]; [| reflexivity].
    apply String.eqb_neq. congruence. }
  assert (Hact' : forall id, activeField st = Some id -> isActive st id = true).
  { intros id H. unfold isActive. rewrite H. apply String.eqb_refl. }
  split.
  - intros tf Hi. cbv zeta. cbn [step]. rewrite Hi. split.
    + intros H. rewrite (Hact _ H). cbn [andb]. rewrite andb_false_r. reflexivity.
    + intros H Hp. rewrite (Hact' _ H), Hp. cbn [andb negb].
      unfold deleteField. cbn [activeField textFields signatures setTextFields].
      split; [exact H |]. split; [| reflexivity].
      intros f Hf. apply filter_In in Hf as [_ Hf].
      apply negb_true_iff, String.eqb_neq in Hf. exact Hf.
  - intros sig Hi. cbv zeta. cbn [step]. rewrite Hi. split.
    + intros H. rewrite (Hact _ H). cbn [andb]. rewrite andb_false_r. reflexivity.
    + intros H Hp. rewrite (Hact' _ H), Hp. cbn [andb negb].
      unfold deleteField. cbn [activeField textFields signatures setSignatures].
      split; [exact H |]. split; [| reflexivity].
      intros s Hs. apply filter_In in Hs as [_ Hs].
      apply negb_true_iff, String.eqb_neq in Hs. exact Hs.
Qed.

Lemma delete_keeps_selection_witness :
  activeField
    (step 7 false (TextFieldDelete 0)
       (setActiveField (Some "text-1") sampleState))
  = Some "text-1".
Proof.
  destruct (delete_keeps_selection 7 (setActiveField (Some "text-1") sampleState) 0)
    as [H _].
  destruct (H sampleField eq_refl) as [_ H'].
  apply (H' eq_refl eq_refl).
Defined.

(** ** Page navigation *)

(** X14.  [Previous] and [Next] stay within the document.  With the
    current page between 1 and the page count, either button moves by at
    most one page, stays between 1 and the page count and changes nothing
    but the current page; [Previous] does nothing on page 1 and [Next]
    nothing on the last page. *)
Theorem page_navigation_stays_in_range (st : State) (ev : NavEvent) :
  (1 <= pageNumber st <= numPages st)%Z ->
  let st' := navigate_page ev st in
  (1 <= pageNumber st' <= numPages st)%Z /\
  (Z.abs (pageNumber st' - pageNumber st) <= 1)%Z /\
  st' = setPageNumber (pageNumber st') st /\
  (pageNumber st = 1%Z -> previousButton st = st) /\
  (pageNumber st = numPages st -> nextButton st = st).
Proof.
  intros H. cbv zeta.
  assert (Heta : st = setPageNumber (pageNumber st) st) by (destruct st; reflexivity).
  split; [| split; [| split; [| split]]].
  - destruct ev; cbn [navigate_page]; unfold previousButton, nextButton.
    + destruct (Z.leb_spec (pageNumber st) 1); cbn; lia.
    + destruct (Z.geb_spec (pageNumber st) (numPages st)); cbn; lia.
  - destruct ev; cbn [navigate_page]; unfold previousButton, nextButton.
    + destruct (Z.leb_spec (pageNumber st) 1); cbn; lia.
    + destruct (Z.geb_spec (pageNumber st) (numPages st)); cbn; lia.
  - destruct ev; cbn [navigate_page]; unfold previousButton, nextButton.
    + destruct (Z.leb_spec (pageNumber st) 1); [exact Heta | reflexivity].
    + destruct (Z.geb_spec (pageNumber st) (numPages st)); [exact Heta | reflexivity].
  - intros E. unfold previousButton. rewrite E. reflexivity.
  - intros E. unfold nextButton. rewrite E, Z.geb_leb, Z.leb_refl. reflexivity.
Qed.

Lemma page_navigation_stays_in_range_witness :
  (pageNumber (navigate_page NextButton (navigate_page NextButton sampleState))
   <= 2)%Z.
Proof.
  apply (page_navigation_stays_in_range (navigate_page NextButton sampleState)
           NextButton).
  cbn. lia.
Defined.

Lemma nextButton_before_load (st : State) :
  numPages st = 0%Z -> pageNumber st = 1%Z -> nextButton st = st.
Proof.
  intros Hn Hp. unfold nextButton. rewrite Hn, Hp. reflexivity.
Qed.

(** ** Sizes of signatures over a session *)

Lemma step_scale_range
    (documentId : Z) (isReadOnly : bool) (ev : Event) (st : State) :
  1 # 2 <= scale st <= 2 ->
  1 # 2 <= scale (step documentId isReadOnly ev st) <= 2.
Proof.
  intros Hs.
  destruct (step_scale documentId isReadOnly ev st) as [-> | (v & -> & Hv)];
    [exact Hs |].
  cbn [scale setScale]. destruct Hv as [-> | [-> | ->]].
  - destruct (Math_max_spec 0.5 (scale st - 0.1)) as [[H ->] | [H ->]]; lra.
  - destruct (Math_min_spec 2 (scale st + 0.1)) as [[H ->] | [H ->]]; lra.
  - lra.
Qed.

Lemma updateSignature_positive
    (st : State) (id : string) (u : Signature.partial) :
  Forall positiveSize (signatures st) ->
  (forall s, In s (signatures st) -> positiveSize (Signature.spread s u)) ->
  Forall positiveSize (signatures (updateSignature st id u st)).
Proof.
  intros Hall Hs. unfold updateSignature. cbn [signatures setSignatures].
  rewrite Forall_forall in *. intros s' Hin.
  apply in_map_iff in Hin as (s & <- & Hin).
  destruct (String.eqb (Signature.id s) id); auto.
Qed.

Lemma signature_resized_positive
    (st : State) (sig : Signature.t) (sw sh : Q) :
  0 < scale st -> positiveSize sig -> 0 < sw -> 0 < sh ->
  0 < fst (signature_resized st sig sw sh) /\
  0 < snd (signature_resized st sig sw sh).
Proof.
  intros Hs [Hw Hh] Hsw Hsh. unfold signature_resized, toDocument.
  assert (Hr : 0 < Signature.width sig / Signature.height sig)
    by (apply Qlt_shift_div_l; lra).
  assert (Hnw : 0 < sw / scale st) by (apply Qlt_shift_div_l; lra).
  assert (Hnh : 0 < sh / scale st) by (apply Qlt_shift_div_l; lra).
  destruct (gtb _ _); cbn [fst snd]; split; try assumption.
  - apply Qlt_shift_div_l; [exact Hr | lra].
  - nra.
Qed.

Lemma step_signatures_positive
    (documentId : Z) (isReadOnly : bool) (ev : Event) (st : State) :
  0 < scale st ->
  decodesPositive ev = true ->
  Forall positiveSize (signatures st) ->
  Forall positiveSize (signatures (step documentId isReadOnly ev st)).
Proof.
  intros Hs Hev Hall.
  destruct ev; cbn [step];
    unfold clearSignature, handleSignatureUpload, handleSaveDraft, handleSubmit,
      textField_onStop, textField_onResize, textField_onChange;
    repeat match goal with
      | |- context [nth_error ?l ?i] => destruct (nth_error l i) eqn:?
      | |- context [if ?b then _ else _] => destruct b
      | |- context [match canvas ?s with _ => _ end] => destruct (canvas s)
      | |- context [match ?d with Some _ => _ | None => _ end] => destruct d
      | |- context [match ?u with Ok _ => _ | Err _ => _ end] => destruct u
      end;
    try exact Hall.
  - (* page click *)
    unfold handlePageClick.
    destruct (_ || _); [exact Hall |].
    destruct (mode st); try exact Hall.
    set (x := toDocument _ _). set (y := toDocument _ _). clearbody x y.
    destruct (addSignature_outcome st env pageNum x y st)
      as [(st0 & H0 & ->) | [(data & ->) | (st0 & p & H0 & ->)]].
    + destruct H0 as [-> | (data & ->)]; exact Hall.
    + exact Hall.
    + destruct (placeSignature_signatures env pageNum x y p st0) as (url & ->).
      assert (E : signatures st0 = signatures st)
        by (destruct H0 as [-> | (data & ->)]; reflexivity).
      rewrite E. apply Forall_app. split; [exact Hall |].
      constructor; [| constructor].
      unfold positiveSize. cbn [Signature.width Signature.height].
      cbn [decodesPositive] in Hev.
      destruct (env_image env) as [img |].
      * apply andb_true_iff in Hev as [Hw Hh].
        apply Z.ltb_lt in Hw. apply Z.ltb_lt in Hh.
        destruct (getImageDimensions_spec img Hw Hh) as (_ & _ & H80 & H30 & _).
        unfold MIN_SIGNATURE_WIDTH, MIN_SIGNATURE_HEIGHT in *. split; lra.
      * cbn. unfold DEFAULT_SIGNATURE_WIDTH, DEFAULT_SIGNATURE_HEIGHT. split; lra.
  - (* drag of a signature *)
    unfold signature_onStop. apply updateSignature_positive; [exact Hall |].
    intros s0 Hin. rewrite Forall_forall in Hall. exact (Hall s0 Hin).
  - (* resize of a signature *)
    unfold signature_onResize.
    match goal with
    | |- context [signature_resized ?a ?b ?c ?d] =>
        pose proof (signature_resized_positive a b c d) as Hpos;
        destruct (signature_resized a b c d) as [w h]
    end.
    cbn [fst snd] in Hpos.
    apply updateSignature_positive; [exact Hall |].
    intros s0 _. unfold positiveSize. cbn.
    apply Hpos; [exact Hs | | |].
    + rewrite Forall_forall in Hall. apply Hall.
      eapply nth_error_In. eassumption.
    + pose proof (Resizable_constrain_bounds
                    (MIN_SIGNATURE_WIDTH * scale st)
                    (MAX_SIGNATURE_WIDTH * scale st) size_width) as Hb.
      unfold MIN_SIGNATURE_WIDTH, MAX_SIGNATURE_WIDTH in *.
      assert (80 * scale st <= 250 * scale st) by nra.
      specialize (Hb H). nra.
    + pose proof (Resizable_constrain_bounds
                    (MIN_SIGNATURE_HEIGHT * scale st)
                    (MAX_SIGNATURE_HEIGHT * scale st) size_height) as Hb.
      unfold MIN_SIGNATURE_HEIGHT, MAX_SIGNATURE_HEIGHT in *.
      assert (30 * scale st <= 100 * scale st) by nra.
      specialize (Hb H). nra.
  - (* delete of a signature *)
    unfold deleteField. cbn [signatures setSignatures].
    rewrite Forall_forall in *. intros s0 Hin.
    apply filter_In in Hin as [Hin _]. exact (Hall s0 Hin).
Qed.

(** X13.  Signatures keep a positive size.  Over any sequence of user
    events, at a zoom within [[1/2, 2]], if every signature of the model
    has positive width and height to begin with and every preview that
    decodes during a placement has positive pixel dimensions, then every
    signature of the model still has positive width and height at the
    end: placement, drag, resize and delete never produce an empty or
    negative footprint. *)
Theorem signatures_stay_positive
    (documentId : Z) (isReadOnly : bool) (evs : list Event) (st : State) :
  1 # 2 <= scale st <= 2 ->
  forallb decodesPositive evs = true ->
  Forall positiveSize (signatures st) ->
  Forall positiveSize (signatures (run documentId isReadOnly evs st)).
Proof.
  revert st. induction evs as [| ev evs IH]; intros st Hs Hevs Hall.
  - exact Hall.
  - cbn [run forallb] in *. apply andb_true_iff in Hevs as [Hev Hevs].
    apply IH; [apply step_scale_range; exact Hs | exact Hevs |].
    apply step_signatures_positive; [lra | exact Hev | exact Hall].
Qed.

Lemma signatures_stay_positive_witness :
  Forall positiveSize
    (signatures
       (run 7 false
          [PageClick sampleClick 1 wideImageEnv; SignatureResize 1 90 40;
           ZoomInButton; SignatureResize 0 500 5]
          uploadedState)).
Proof.
  apply (signatures_stay_positive 7 false
           [PageClick sampleClick 1 wideImageEnv; SignatureResize 1 90 40;
            ZoomInButton; SignatureResize 0 500 5]
           uploadedState).
  - split; vm_compute; discriminate.
  - reflexivity.
  - repeat constructor.
Defined.

(** ** The hosting page *)

Lemma loadRevisionNote_frame
    (id : Z) (doc : DocumentSign.Document)
    (sentBack : Response (option (list DocumentSign.SentBack)))
    (p : DocumentSign.Page) :
  let p' := DocumentSign.loadRevisionNote id doc sentBack p in
  DocumentSign.document p' = DocumentSign.document p /\
  DocumentSign.loading p' = DocumentSign.loading p /\
  DocumentSign.pdfUrl p' = DocumentSign.pdfUrl p /\
  DocumentSign.isReadOnly p' = DocumentSign.isReadOnly p /\
  DocumentSign.loadAlerts p' = DocumentSign.loadAlerts p /\
  DocumentSign.navigations p' = DocumentSign.navigations p.
Proof.
  cbv zeta. unfold DocumentSign.loadRevisionNote.
  repeat match goal with
    | |- context [if ?b then _ else _] => destruct b
    | |- context [match ?d with Some _ => _ | None => _ end] => destruct d
    | |- context [match ?u with Ok _ => _ | Err _ => _ end] => destruct u
    end; cbn; auto 10.
Qed.

(** [loadDocument] on a document that arrived, up to the download. *)
Lemma loadDocument_arrived
    (id : Z) (doc : DocumentSign.Document)
    (sentBack : Response (option (list DocumentSign.SentBack)))
    (pdfResp : Response (option Z)) (url : string) (p : DocumentSign.Page) :
  exists q,
    DocumentSign.loadDocument id (Ok (Some doc)) sentBack pdfResp url p
    = DocumentSign.setLoading false
        (match pdfResp with
         | Ok (Some size) =>
             if Z.eqb size 0 then DocumentSign.failed q
             else DocumentSign.setPdfUrl url q
         | _ => DocumentSign.failed q
         end) /\
    DocumentSign.document q = Some doc /\
    DocumentSign.pdfUrl q = DocumentSign.pdfUrl p /\
    DocumentSign.isReadOnly q = isSigned doc || DocumentSign.isReadOnly p /\
    DocumentSign.loadAlerts q = DocumentSign.loadAlerts p /\
    DocumentSign.navigations q = DocumentSign.navigations p.
Proof.
  unfold DocumentSign.loadDocument. fold (isSigned doc).
  match goal with
  | |- context [DocumentSign.loadRevisionNote ?a ?b ?c ?d] =>
      destruct (loadRevisionNote_frame a b c d) as (Hd & _ & Hu & Hro & Ha & Hn);
      set (q := DocumentSign.loadRevisionNote a b c d) in *
  end.
  exists (DocumentSign.fetch (DocumentSign.GetDownload id) q).
  split.
  - destruct pdfResp as [[size |] | e]; reflexivity.
  - cbn [DocumentSign.fetch DocumentSign.document DocumentSign.pdfUrl
         DocumentSign.isReadOnly DocumentSign.loadAlerts DocumentSign.navigations].
    rewrite Hd, Hu, Hro, Ha, Hn.
    destruct (isSigned doc); cbn; auto.
Qed.

(** X15.  A signed document opens read-only.  When the metadata says the
    document (or the recipient's copy) is ['signed'] and the PDF download
    is not empty, the page renders the signing interface with
    [isReadOnly] set, whatever the page state was before; and then no
    sequence of user events on that interface sends a request, raises an
    alert or changes the placement mode, and no sequence without resize
    events changes the text fields or the signatures. *)
Theorem signed_document_opens_locked
    (id : Z) (doc : DocumentSign.Document)
    (sentBack : Response (option (list DocumentSign.SentBack)))
    (size : Z) (url : string) (p : DocumentSign.Page) :
  isSigned doc = true -> size <> 0%Z -> url <> "" ->
  let p' :=
    DocumentSign.loadDocument id (Ok (Some doc)) sentBack (Ok (Some size)) url p in
  DocumentSign.render id p' = DocumentSign.SigningInterface id url true /\
  (forall evs st,
      requests (hosted (DocumentSign.render id p') evs st) = requests st /\
      alerts (hosted (DocumentSign.render id p') evs st) = alerts st /\
      mode (hosted (DocumentSign.render id p') evs st) = mode st) /\
  (forall evs st,
      forallb (fun ev => negb (isResize ev)) evs = true ->
      textFields (hosted (DocumentSign.render id p') evs st) = textFields st /\
      signatures (hosted (DocumentSign.render id p') evs st) = signatures st).
Proof.
  intros Hsigned Hsize Hurl. cbv zeta.
  destruct (loadDocument_arrived id doc sentBack (Ok (Some size)) url p)
    as (q & -> & Hd & _ & Hro & _).
  apply Z.eqb_neq in Hsize. rewrite Hsize.
  assert (E : DocumentSign.render id
                (DocumentSign.setLoading false (DocumentSign.setPdfUrl url q))
              = DocumentSign.SigningInterface id url true).
  { unfold DocumentSign.render. cbn. rewrite Hd, Hro, Hsigned.
    apply String.eqb_neq in Hurl. rewrite Hurl. reflexivity. }
  rewrite E. split; [reflexivity |]. split.
  - intros evs st. cbn [hosted].
    destruct (run_read_only_effects id evs st) as (Hr & Ha & Hm & _). auto.
  - intros evs st Hevs. cbn [hosted]. apply run_read_only_model, Hevs.
Qed.

Lemma signed_document_opens_locked_witness :
  DocumentSign.render 7
    (DocumentSign.loadDocument 7 (Ok (Some sampleDocument)) (Err None)
       (Ok (Some 1024%Z)) "blob:pdf" DocumentSign.initialPage)
  = DocumentSign.SigningInterface 7 "blob:pdf" true.
Proof.
  apply (signed_document_opens_locked 7 sampleDocument (Err None) 1024
           "blob:pdf" DocumentSign.initialPage);
    [reflexivity | discriminate | discriminate].
Defined.

(** X16.  A document that cannot be loaded is never shown.  From a page
    with no PDF yet, if the metadata fetch fails or carries no document,
    or the download fails, has no data or is empty, then [loadDocument]
    raises one alert, navigates to ['/'], stops the spinner and leaves the
    page rendering "Document not found": the signing interface is not
    mounted, so no user event reaches it. *)
Theorem failed_load_redirects
    (id : Z) (docResp : Response (option DocumentSign.Document))
    (sentBack : Response (option (list DocumentSign.SentBack)))
    (pdfResp : Response (option Z)) (url : string) (p : DocumentSign.Page) :
  DocumentSign.pdfUrl p = "" ->
  (forall doc, docResp <> Ok (Some doc)) \/
  (forall size, pdfResp = Ok (Some size) -> size = 0%Z) ->
  let p' := DocumentSign.loadDocument id docResp sentBack pdfResp url p in
  DocumentSign.render id p' = DocumentSign.DocumentNotFound /\
  DocumentSign.loading p' = false /\
  DocumentSign.loadAlerts p' = S (DocumentSign.loadAlerts p) /\
  DocumentSign.navigations p' = (DocumentSign.navigations p ++ ["/"])%list /\
  (forall evs st, hosted (DocumentSign.render id p') evs st = st).
Proof.
  intros Hurl Hfail. cbv zeta.
  assert (Hq : forall q,
             DocumentSign.pdfUrl q = "" ->
             DocumentSign.loadAlerts q = DocumentSign.loadAlerts p ->
             DocumentSign.navigations q = DocumentSign.navigations p ->
             let p' := DocumentSign.setLoading false (DocumentSign.failed q) in
             DocumentSign.render id p' = DocumentSign.DocumentNotFound /\
             DocumentSign.loading p' = false /\
             DocumentSign.loadAlerts p' = S (DocumentSign.loadAlerts p) /\
             DocumentSign.navigations p'
             = (DocumentSign.navigations p ++ ["/"])%list).
  { intros q Hu Ha Hn. cbv zeta. unfold DocumentSign.render. cbn.
    rewrite Hu, Ha, Hn. destruct (DocumentSign.document q); cbn; auto. }
  assert (E : let p' := DocumentSign.loadDocument id docResp sentBack pdfResp url p in
              DocumentSign.render id p' = DocumentSign.DocumentNotFound /\
              DocumentSign.loading p' = false /\
              DocumentSign.loadAlerts p' = S (DocumentSign.loadAlerts p) /\
              DocumentSign.navigations p'
              = (DocumentSign.navigations p ++ ["/"])%list).
  { destruct docResp as [[doc |] | e].
    - destruct Hfail as [Hfail | Hfail]; [destruct (Hfail doc eq_refl) |].
      destruct (loadDocument_arrived id doc sentBack pdfResp url p)
        as (q & -> & _ & Hu & _ & Ha & Hn).
      rewrite Hurl in Hu.
      destruct pdfResp as [[size |] | e]; try (apply Hq; assumption).
      rewrite (Hfail size eq_refl). cbn [Z.eqb]. apply Hq; assumption.
    - apply (Hq (DocumentSign.setDocument None
                   (DocumentSign.fetch (DocumentSign.GetDocument id) p)));
        [exact Hurl | reflexivity | reflexivity].
    - apply (Hq (DocumentSign.fetch (DocumentSign.GetDocument id) p));
        [exact Hurl | reflexivity | reflexivity]. }
  cbv zeta in E. destruct E as (E1 & E2 & E3 & E4).
  rewrite E1. repeat split; auto.
Qed.

Lemma failed_load_redirects_witness :
  DocumentSign.navigations
    (DocumentSign.loadDocument 7 (Ok (Some sampleDocument)) (Err None)
       (Ok (Some 0%Z)) "blob:pdf" DocumentSign.initialPage)
  = ["/"].
Proof.
  apply (failed_load_redirects 7 (Ok (Some sampleDocument)) (Err None)
           (Ok (Some 0%Z)) "blob:pdf" DocumentSign.initialPage).
  - reflexivity.
  - right. intros size H. injection H as <-. reflexivity.
Defined.

(** X17.  [loadDocument] never clears the read-only flag.  After a load
    the flag is set exactly when it was set before or the document that
    arrived is signed; so a page that has shown a signed document stays
    read-only when an unsigned one is loaded into it afterwards. *)
Theorem read_only_is_never_cleared
    (id : Z) (docResp : Response (option DocumentSign.Document))
    (sentBack : Response (option (list DocumentSign.SentBack)))
    (pdfResp : Response (option Z)) (url : string) (p : DocumentSign.Page) :
  let p' := DocumentSign.loadDocument id docResp sentBack pdfResp url p in
  DocumentSign.isReadOnly p'
  = DocumentSign.isReadOnly p
    || match docResp with
       | Ok (Some doc) => isSigned doc
       | _ => false
       end /\
  (DocumentSign.isReadOnly p = true ->
   forall size, pdfResp = Ok (Some size) -> size <> 0%Z -> url <> "" ->
   forall doc, docResp = Ok (Some doc) ->
   DocumentSign.render id p' = DocumentSign.SigningInterface id url true).
Proof.
  cbv zeta. split.
  - destruct docResp as [[doc |] | e].
    + destruct (loadDocument_arrived id doc sentBack pdfResp url p)
        as (q & -> & _ & _ & Hro & _).
      rewrite orb_comm, <- Hro.
      destruct pdfResp as [[size |] | e]; [destruct (Z.eqb size 0) | |];
        reflexivity.
    + cbn. rewrite orb_false_r. reflexivity.
    + cbn. rewrite orb_false_r. reflexivity.
  - intros Hro size -> Hsize Hurl doc ->.
    destruct (loadDocument_arrived id doc sentBack (Ok (Some size)) url p)
      as (q & -> & Hd & _ & Hq & _).
    apply Z.eqb_neq in Hsize. rewrite Hsize.
    unfold DocumentSign.render. cbn. rewrite Hd, Hq, Hro, orb_true_r.
    apply String.eqb_neq in Hurl. rewrite Hurl. reflexivity.
Qed.

Lemma read_only_is_never_cleared_witness :
  DocumentSign.render 8
    (DocumentSign.loadDocument 8 (Ok (Some sentBackDocument)) (Err None)
       (Ok (Some 2048%Z)) "blob:pdf2"
       (DocumentSign.loadDocument 7 (Ok (Some sampleDocument)) (Err None)
          (Ok (Some 1024%Z)) "blob:pdf" DocumentSign.initialPage))
  = DocumentSign.SigningInterface 8 "blob:pdf2" true.
Proof.
  destruct (read_only_is_never_cleared 8 (Ok (Some sentBackDocument)) (Err None)
              (Ok (Some 2048%Z)) "blob:pdf2"
              (DocumentSign.loadDocument 7 (Ok (Some sampleDocument)) (Err None)
                 (Ok (Some 1024%Z)) "blob:pdf" DocumentSign.initialPage))
    as [_ H].
  refine (H eq_refl 2048%Z eq_refl _ _ sentBackDocument eq_refl); discriminate.
Defined.

Ltac load_cases :=
  repeat match goal with
    | |- context [if ?b then _ else _] => destruct b
    | |- context [match ?d with Some _ => _ | None => _ end] => destruct d
    | |- context [match ?u with Ok _ => _ | Err _ => _ end] => destruct u
    end.

(** X18.  Where the revision note comes from.  A non-empty note on the
    document itself is shown and the sent-back list is not fetched.
    Without one, the list is fetched only for a document sent back for
    signing, between the metadata fetch and the download; the note of the
    entry with the document's id is shown when that entry has a non-empty
    one, and a failed list fetch changes nothing and does not stop the
    load.  In every other case the note is what it was. *)
Theorem revision_note_resolution
    (id : Z) (doc : DocumentSign.Document)
    (sentBack : Response (option (list DocumentSign.SentBack)))
    (pdfResp : Response (option Z)) (url : string) (p : DocumentSign.Page) :
  let p' := DocumentSign.loadDocument id (Ok (Some doc)) sentBack pdfResp url p in
  (truthy (DocumentSign.revision_note doc) = true ->
   DocumentSign.revisionNote p' = DocumentSign.revision_note doc /\
   DocumentSign.gets p'
   = (DocumentSign.gets p
      ++ [DocumentSign.GetDocument id; DocumentSign.GetDownload id])%list) /\
  (truthy (DocumentSign.revision_note doc) = false ->
   isSentBack doc = false ->
   DocumentSign.revisionNote p' = DocumentSign.revisionNote p /\
   DocumentSign.gets p'
   = (DocumentSign.gets p
      ++ [DocumentSign.GetDocument id; DocumentSign.GetDownload id])%list) /\
  (truthy (DocumentSign.revision_note doc) = false ->
   isSentBack doc = true ->
   DocumentSign.gets p'
   = (DocumentSign.gets p
      ++ [DocumentSign.GetDocument id; DocumentSign.GetSentBackForSigning;
          DocumentSign.GetDownload id])%list /\
   (forall e, sentBack = Err e ->
              DocumentSign.revisionNote p' = DocumentSign.revisionNote p) /\
   (forall l d,
       sentBack = Ok (Some l) ->
       find (fun d => Z.eqb (DocumentSign.sb_id d) id) l = Some d ->
       truthy (DocumentSign.sb_revision_note d) = true ->
       DocumentSign.revisionNote p' = DocumentSign.sb_revision_note d) /\
   (forall l,
       sentBack = Ok (Some l) ->
       find (fun d => Z.eqb (DocumentSign.sb_id d) id) l = None ->
       DocumentSign.revisionNote p' = DocumentSign.revisionNote p)) /\
  (forall size,
      pdfResp = Ok (Some size) -> size <> 0%Z -> url <> "" ->
      exists isReadOnly,
        DocumentSign.render id p' = DocumentSign.SigningInterface id url isReadOnly).
Proof.
  cbv zeta. split; [| split; [| split]].
  - intros Hn. unfold DocumentSign.loadDocument, DocumentSign.loadRevisionNote.
    rewrite Hn. split; load_cases; cbn; rewrite <- ?app_assoc; reflexivity.
  - intros Hn Hs. unfold DocumentSign.loadDocument, DocumentSign.loadRevisionNote.
    unfold isSentBack in Hs. rewrite Hn, Hs.
    split; load_cases; cbn; rewrite <- ?app_assoc; reflexivity.
  - intros Hn Hs. unfold DocumentSign.loadDocument, DocumentSign.loadRevisionNote.
    unfold isSentBack in Hs. rewrite Hn, Hs.
    split; [| split; [| split]].
    + load_cases; cbn; rewrite <- ?app_assoc; reflexivity.
    + intros e ->. load_cases; reflexivity.
    + intros l d -> Hf Ht. rewrite Hf, Ht. load_cases; reflexivity.
    + intros l -> Hf. rewrite Hf. load_cases; reflexivity.
  - intros size -> Hsize Hurl.
    destruct (loadDocument_arrived id doc sentBack (Ok (Some size)) url p)
      as (q & -> & Hd & _).
    apply Z.eqb_neq in Hsize. rewrite Hsize.
    unfold DocumentSign.render. cbn. rewrite Hd.
    apply String.eqb_neq in Hurl. rewrite Hurl. eexists. reflexivity.
Qed.

Lemma revision_note_resolution_witness :
  DocumentSign.revisionNote
    (DocumentSign.loadDocument 7 (Ok (Some sentBackDocument))
       (Ok (Some [DocumentSign.mkSentBack 3 (Some "other");
                  DocumentSign.mkSentBack 7 (Some "Initial page 2")]))
       (Ok (Some 1024%Z)) "blob:pdf" DocumentSign.initialPage)
  = Some "Initial page 2".
Proof.
  destruct (revision_note_resolution 7 sentBackDocument
              (Ok (Some [DocumentSign.mkSentBack 3 (Some "other");
                         DocumentSign.mkSentBack 7 (Some "Initial page 2")]))
              (Ok (Some 1024%Z)) "blob:pdf" DocumentSign.initialPage)
    as (_ & _ & H & _).
  destruct (H eq_refl eq_refl) as (_ & _ & Hfound & _).
  apply (Hfound _ (DocumentSign.mkSentBack 7 (Some "Initial page 2")) eq_refl);
    reflexivity.
Defined.

(** ** Typing, once more *)

(** X19.  Typing into a text field does not change its text.  The
    [onChange] handler calls [updateTextField] twice from one closure and
    the second call, which only sets the width, is computed from the same
    [textFields] as the first; what the state keeps is its result.  So
    after a change event every text field holds the text it held before,
    and a draft saved next carries the old text. *)
Theorem typed_text_is_not_stored
    (documentId : Z) (isReadOnly : bool) (i : nat) (newText : string)
    (st : State) :
  let st' := step documentId isReadOnly (TextFieldChange i newText) st in
  map TextField.text_content (textFields st')
  = map TextField.text_content (textFields st) /\
  map TextField.id (textFields st') = map TextField.id (textFields st) /\
  signatures st' = signatures st.
Proof.
  cbv zeta. cbn [step].
  destruct (nth_error (textFields st) i) as [tf |]; [| auto].
  destruct (_ && _); [| auto].
  unfold textField_onChange, updateTextField.
  cbn [textFields signatures setTextFields].
  rewrite !map_map.
  repeat split; apply map_ext; intros f;
    destruct (String.eqb (TextField.id f) (TextField.id tf)); reflexivity.
Qed.

(** X20.  Page clicks in the earlier variant.  It has no [pdfReady]
    flag: a click is ignored when the session is read-only or the mode is
    ['none'], and before the page count is known there is no page to
    click.  In text mode on a ready PDF its click handler does exactly
    what the current one does. *)
Theorem legacy_page_click
    (isReadOnly : bool) (st : State) (e : MouseEvent) (pageNum : Z)
    (env : PlacementEnv) :
  (isReadOnly = true \/ mode st = ModeNone \/ numPages st = 0%Z ->
   Legacy.pageClick isReadOnly e pageNum env st = st) /\
  (mode st = ModeText -> pdfReady st = true ->
   Legacy.handlePageClick isReadOnly st e pageNum env st
   = handlePageClick isReadOnly st e pageNum env st).
Proof.
  split.
  - intros H. unfold Legacy.pageClick, pageRendered, Legacy.handlePageClick.
    destruct H as [-> | [-> | ->]].
    + destruct (_ && _); reflexivity.
    + rewrite orb_true_r. destruct (_ && _); reflexivity.
    + destruct (Z.leb_spec 1 pageNum), (Z.leb_spec pageNum 0); cbn [andb];
        try reflexivity; lia.
  - intros Hm Hr. unfold Legacy.handlePageClick, handlePageClick.
    rewrite Hm, Hr. cbn [negb]. rewrite !orb_false_r. reflexivity.
Qed.

Lemma legacy_page_click_witness :
  Legacy.pageClick false sampleClick 1 plainImageEnv initialState = initialState.
Proof.
  destruct (legacy_page_click false initialState sampleClick 1 plainImageEnv)
    as [H _].
  apply H. right. left. reflexivity.
Defined.

(** ** Readiness *)

Lemma addSignature_load_state
    (r : State) (env : PlacementEnv) (pageNum : Z) (x y : Q) (st : State) :
  numPages (addSignature r env pageNum x y st) = numPages st /\
  pdfReady (addSignature r env pageNum x y st) = pdfReady st.
Proof.
  destruct (addSignature_outcome r env pageNum x y st)
    as [(st0 & H0 & ->) | [(data & ->) | (st0 & p & H0 & ->)]].
  - destruct H0 as [-> | (data & ->)]; cbn; auto.
  - cbn. auto.
  - assert (E : numPages st0 = numPages st /\ pdfReady st0 = pdfReady st)
      by (destruct H0 as [-> | (data & ->)]; cbn; auto).
    destruct E as [<- <-].
    unfold placeSignature, loadSignatureImage.
    destruct (match env_image env with
              | Some img => getImageDimensions img
              | None => (DEFAULT_SIGNATURE_WIDTH, DEFAULT_SIGNATURE_HEIGHT)
              end) as [w h].
    cbn. destruct (canvas st0); cbn; auto.
Qed.

Lemma step_load_state
    (documentId : Z) (isReadOnly : bool) (ev : Event) (st : State) :
  (numPages (step documentId isReadOnly ev st) = numPages st /\
   pdfReady (step documentId isReadOnly ev st) = pdfReady st) \/
  pdfReady (step documentId isReadOnly ev st) = true.
Proof.
  destruct ev; cbn [step];
    try (right; reflexivity);
    left;
    unfold handlePageClick, signature_onResize, clearSignature,
      handleSignatureUpload, handleSaveDraft, handleSubmit;
    repeat match goal with
      | |- context [nth_error ?l ?i] => destruct (nth_error l i)
      | |- context [signature_resized ?a ?b ?c ?d] =>
          destruct (signature_resized a b c d)
      | |- context [if ?b then _ else _] => destruct b
      | |- context [match mode ?s with _ => _ end] => destruct (mode s)
      | |- context [match canvas ?s with _ => _ end] => destruct (canvas s)
      | |- context [match ?d with Some _ => _ | None => _ end] => destruct d
      | |- context [match ?u with Ok _ => _ | Err _ => _ end] => destruct u
      end;
    try (split; reflexivity);
    apply addSignature_load_state.
Qed.

(** X21.  Pages are only there once the PDF is ready.  [numPages] and
    [pdfReady] are set together when the document loads and by nothing
    else, so over any sequence of user events from a state where a
    positive page count implies [pdfReady] (the initial state is one),
    every page the viewer renders belongs to a ready PDF: a click on a
    rendered page never meets the "PDF not ready" guard of
    [handlePageClick]. *)
Theorem pages_imply_pdf_ready
    (documentId : Z) (isReadOnly : bool) (evs : list Event) (st : State) :
  ((1 <= numPages st)%Z -> pdfReady st = true) ->
  let st' := run documentId isReadOnly evs st in
  ((1 <= numPages st')%Z -> pdfReady st' = true) /\
  (forall pageNum, pageRendered st' pageNum = true -> pdfReady st' = true).
Proof.
  intros Hinv. cbv zeta.
  assert (H : (1 <= numPages (run documentId isReadOnly evs st))%Z ->
              pdfReady (run documentId isReadOnly evs st) = true).
  { revert st Hinv. induction evs as [| ev evs IH]; intros st Hinv; [exact Hinv |].
    cbn [run]. apply IH.
    destruct (step_load_state documentId isReadOnly ev st) as [[-> ->] | ->];
      auto. }
  split; [exact H |].
  intros pageNum Hp. apply H. unfold pageRendered in Hp.
  apply andb_true_iff in Hp as [H1 H2].
  apply Z.leb_le in H1. apply Z.leb_le in H2. lia.
Qed.

Lemma pages_imply_pdf_ready_witness :
  pdfReady
    (run 7 false [AddTextButton; DocumentLoaded 3; ZoomInButton] initialState)
  = true.
Proof.
  apply (pages_imply_pdf_ready 7 false
           [AddTextButton; DocumentLoaded 3; ZoomInButton] initialState).
  - cbn. lia.
  - cbn. lia.
Defined.

(** ** Moving and resizing a text field *)

(** X22.  A text field is stored where it is dropped and as large as it
    is pulled.  At a positive scale, for a rendered text field of an
    editable session, the drag stop stores the reported position divided
    by the scale and the resize stores the reported size divided by the
    scale, with no bounds; the field is then rendered at exactly the
    reported position, respectively size.  A drag leaves the size and a
    resize leaves the position, and both leave text, font size, page, id
    and the signatures as they were. *)
Theorem text_field_drag_and_resize
    (documentId : Z) (st : State) (i : nat) (tf : TextField.t) (a b : Q) :
  0 < scale st ->
  nth_error (textFields st) i = Some tf ->
  pageRendered st (TextField.page_number tf) = true ->
  (exists tf',
      nth_error
        (textFields (step documentId false (TextFieldDragStop i a b) st)) i
      = Some tf' /\
      fst (textField_position st tf') == a /\
      snd (textField_position st tf') == b /\
      tf' = TextField.mk (TextField.id tf) (TextField.page_number tf)
              (toDocument a (scale st)) (toDocument b (scale st))
              (TextField.width tf) (TextField.height tf)
              (TextField.font_size tf) (TextField.text_content tf)) /\
  (exists tf',
      nth_error
        (textFields (step documentId false (TextFieldResize i a b) st)) i
      = Some tf' /\
      toViewport (TextField.width tf') (scale st) == a /\
      toViewport (TextField.height tf') (scale st) == b /\
      tf' = TextField.mk (TextField.id tf) (TextField.page_number tf)
              (TextField.x_coordinate tf) (TextField.y_coordinate tf)
              (toDocument a (scale st)) (toDocument b (scale st))
              (TextField.font_size tf) (TextField.text_content tf)) /\
  signatures (step documentId false (TextFieldDragStop i a b) st)
  = signatures st /\
  signatures (step documentId false (TextFieldResize i a b) st)
  = signatures st.
Proof.
  intros Hs Hi Hp. cbn [step]. rewrite Hi, Hp. cbn [andb negb].
  unfold textField_onStop, textField_onResize, updateTextField.
  cbn [textFields signatures setTextFields].
  rewrite !(map_nth_error _ _ _ Hi), String.eqb_refl.
  split; [| split; [| split; reflexivity]].
  - eexists. split; [reflexivity |]. cbn.
    repeat split; try reflexivity; apply toViewport_toDocument, Hs.
  - eexists. split; [reflexivity |]. cbn.
    repeat split; try reflexivity; apply toViewport_toDocument, Hs.
Qed.

Lemma text_field_drag_and_resize_witness :
  exists tf',
    nth_error
      (textFields (step 7 false (TextFieldResize 0 450 60) sampleState)) 0
    = Some tf' /\
    TextField.width tf' == 300.
Proof.
  destruct (text_field_drag_and_resize 7 sampleState 0 sampleField 450 60)
    as (_ & (tf' & Hnth & _ & _ & ->) & _); try reflexivity.
  eexists. split; [exact Hnth |]. reflexivity.
Defined.

(** ** Outcome of a draft save *)

(** X23.  [onSaveDraft] is called exactly when the save succeeded.  A
    successful save raises [DraftSaved] and calls [onSaveDraft] once; a
    failed one raises [DraftSaveFailed] with the server's message and
    calls nothing.  Either way the handler sends one request and leaves
    model, mode and selection alone, so saving again after a failure
    sends the same body again. *)
Theorem save_draft_outcome
    (documentId : Z) (st : State) (resp retry : Response unit) :
  let st' := handleSaveDraft documentId st resp st in
  (forall u, resp = Ok u ->
             alerts st' = (alerts st ++ [DraftSaved])%list /\
             callbacks st' = (callbacks st ++ [OnSaveDraft])%list) /\
  (forall e, resp = Err e ->
             alerts st' = (alerts st ++ [DraftSaveFailed e])%list /\
             callbacks st' = callbacks st /\
             exists body,
               requests (handleSaveDraft documentId st' retry st')
               = (requests st ++ [PostDraft documentId body;
                                  PostDraft documentId body])%list) /\
  List.length (requests st') = S (List.length (requests st)) /\
  mode st' = mode st /\ activeField st' = activeField st /\
  signatureImage st' = signatureImage st.
Proof.
  cbv zeta. unfold handleSaveDraft. destruct resp as [u | e].
  - split; [intros u' _; split; reflexivity |].
    split; [intros e H; discriminate H |].
    cbn. rewrite length_app. cbn. repeat split; try reflexivity. lia.
  - split; [intros u H; discriminate H |].
    split.
    + intros e' [= <-]. split; [reflexivity |]. split; [reflexivity |].
      eexists. destruct retry; cbn; rewrite <- app_assoc; reflexivity.
    + cbn. rewrite length_app. cbn. repeat split; try reflexivity. lia.
Qed.

Lemma save_draft_outcome_witness :
  callbacks (handleSaveDraft 7 sampleState (Err (Some "locked")) sampleState)
  = [].
Proof.
  destruct (save_draft_outcome 7 sampleState (Err (Some "locked")) (Ok tt))
    as (_ & H & _).
  destruct (H (Some "locked") eq_refl) as (_ & Hc & _). exact Hc.
Defined.
